(** * Windows optimizer: the orchestration, confirmation and progress layer

    A shallow embedding of [Windows_optimizer_opensource.py].

    - Python [str] values are [string]s.  The text operations used by the
      program ([strip], [lower], [split], [splitlines], [int]) are embedded
      on their ASCII behaviour; bytes above 127 (the UTF-8 encoding of the
      non-breaking hyphen of the Wi-Fi prompts) are carried unchanged.
    - Everything the program asks of its environment (files, processes, the
      shell API, the clock, the thread scheduler) is answered by an [OS]
      record of oracles.  An oracle sees the history of events so far, so
      the answers can depend on what the program did before.
    - Effects are threaded through a state-and-exception monad [M] over a
      [World]: the oracles, the chronological event trace, the lines still
      waiting on standard input and the module global
      [launched_interactive].
    - Asynchronous interrupts (Ctrl-C) are not part of the model. *)

From Stdlib Require Import String Ascii List ZArith NArith Bool Arith Lia.
From Stdlib Require Import Decimal DecimalString Hexadecimal HexadecimalString.
From Stdlib Require Import Permutation.
From Stdlib Require DecimalPos.
Import ListNotations.
Local Open Scope list_scope.
Local Open Scope string_scope.

(** ** Text *)

Module Text.

Definition chr (n : nat) : ascii := ascii_of_nat n.
Definition str1 (c : ascii) : string := String c EmptyString.

Definition LF : ascii := chr 10.
Definition CR : ascii := chr 13.
Definition nl : string := str1 LF.
Definition cr : string := str1 CR.
Definition backslash : string := str1 (chr 92).

Definition is_empty (s : string) : bool :=
  match s with EmptyString => true | String _ _ => false end.

(** [bool(s)] of a string: the empty string is falsy. *)
Definition truthy (s : string) : bool := negb (is_empty s).

(** [str.isspace] on one ASCII character: tab, line feed, vertical tab,
    form feed, carriage return, the four separators 28..31 and space. *)
Definition is_space (c : ascii) : bool :=
  let n := nat_of_ascii c in
  (((9 <=? n) && (n <=? 13)) || ((28 <=? n) && (n <=? 32)))%nat.

Fixpoint lstrip (s : string) : string :=
  match s with
  | EmptyString => EmptyString
  | String c r => if is_space c then lstrip r else s
  end.

Fixpoint rstrip (s : string) : string :=
  match s with
  | EmptyString => EmptyString
  | String c r =>
      match rstrip r with
      | EmptyString => if is_space c then EmptyString else str1 c
      | r' => String c r'
      end
  end.

(** [s.strip()] *)
Definition strip (s : string) : string := rstrip (lstrip s).

Definition lower_char (c : ascii) : ascii :=
  let n := nat_of_ascii c in
  if ((65 <=? n) && (n <=? 90))%nat then chr (n + 32) else c.

(** [s.lower()] *)
Fixpoint lower (s : string) : string :=
  match s with
  | EmptyString => EmptyString
  | String c r => String (lower_char c) (lower r)
  end.

(** [s.split(sep)] for a one-character separator: never an empty list. *)
Fixpoint split_on (sep : ascii) (s : string) : list string :=
  match s with
  | EmptyString => [EmptyString]
  | String c r =>
      if Ascii.eqb c sep then EmptyString :: split_on sep r
      else match split_on sep r with
           | h :: t => String c h :: t
           | [] => [str1 c]
           end
  end.

(** Line boundaries of [str.splitlines]: LF, VT, FF, CR and 28..30. *)
Definition is_linebreak (c : ascii) : bool :=
  let n := nat_of_ascii c in
  (((10 <=? n) && (n <=? 13)) || ((28 <=? n) && (n <=? 30)))%nat.

Fixpoint splitlines_from (acc : string) (after_cr : bool) (s : string)
  : list string :=
  match s with
  | EmptyString => if is_empty acc then [] else [acc]
  | String c r =>
      if after_cr && Ascii.eqb c LF then splitlines_from acc false r
      else if is_linebreak c
           then acc :: splitlines_from EmptyString (Ascii.eqb c CR) r
           else splitlines_from (acc ++ str1 c) false r
  end.

(** [s.splitlines()] *)
Definition splitlines (s : string) : list string :=
  splitlines_from EmptyString false s.

(** The longest prefix without whitespace, and what follows it. *)
Fixpoint span_word (s : string) : string * string :=
  match s with
  | EmptyString => (EmptyString, EmptyString)
  | String c r =>
      if is_space c then (EmptyString, s)
      else let (w, rest) := span_word r in (String c w, rest)
  end.

(** [s.split(None, maxsplit)]: at most [maxsplit] words are cut off; what
    is left, without its leading whitespace, is the last part. *)
Fixpoint split_ws (maxsplit : nat) (s : string) : list string :=
  let r := lstrip s in
  match maxsplit with
  | O => if is_empty r then [] else [r]
  | S m =>
      if is_empty r then []
      else let (w, rest) := span_word r in w :: split_ws m rest
  end.

(** [needle in hay] *)
Fixpoint contains (needle hay : string) : bool :=
  String.prefix needle hay ||
  match hay with
  | EmptyString => false
  | String _ r => contains needle r
  end.

(** [x in l] for a list of strings *)
Definition mem (x : string) (l : list string) : bool :=
  existsb (String.eqb x) l.

(** [sep.join(l)] *)
Definition join (sep : string) (l : list string) : string :=
  String.concat sep l.

(** [str(n)] of an integer *)
Definition str_of_Z (z : Z) : string := DecimalString.NilZero.string_of_int (Z.to_int z).
Definition str_of_nat (n : nat) : string := str_of_Z (Z.of_nat n).

Definition upper_char (c : ascii) : ascii :=
  let n := nat_of_ascii c in
  if ((97 <=? n) && (n <=? 122))%nat then chr (n - 32) else c.

Fixpoint upper (s : string) : string :=
  match s with
  | EmptyString => EmptyString
  | String c r => String (upper_char c) (upper r)
  end.

Fixpoint zeros (n : nat) : string :=
  match n with O => EmptyString | S k => String "0" (zeros k) end.

(** [format(z, '08X')]: upper-case hexadecimal, zero-padded to eight
    columns, the sign counted in the width. *)
Definition format_08X (z : Z) : string :=
  let digits :=
    upper (HexadecimalString.NilZero.string_of_uint (N.to_hex_uint (Z.abs_N z))) in
  let sign := if (z <? 0)%Z then "-" else EmptyString in
  sign ++ zeros (8 - String.length sign - String.length digits) ++ digits.

Definition is_digit (c : ascii) : bool :=
  let n := nat_of_ascii c in ((48 <=? n) && (n <=? 57))%nat.

Definition digit_val (c : ascii) : Z := Z.of_nat (nat_of_ascii c - 48).

(** The digit part of [int(s)]: decimal digits, single underscores allowed
    between two digits. *)
Fixpoint digits_val (acc : Z) (after_digit : bool) (s : string) : option Z :=
  match s with
  | EmptyString => if after_digit then Some acc else None
  | String c r =>
      if is_digit c then digits_val (10 * acc + digit_val c) true r
      else if Ascii.eqb c "_"
           then (if after_digit then digits_val acc false r else None)
           else None
  end.

(** [int(s)]: [None] stands for [ValueError]. *)
Definition py_int (s : string) : option Z :=
  match strip s with
  | String "+" r => digits_val 0 false r
  | String "-" r => option_map Z.opp (digits_val 0 false r)
  | t => digits_val 0 false t
  end.

End Text.
Import Text.

(** ** Exceptions *)

(** The subclasses of [Exception] the program can meet. *)
Inductive exception_class :=
| EOFError | CalledProcessError | FileNotFoundError | PermissionError
| OSError | AttributeError | ValueError | TypeError | RuntimeError.

(** Every fault is a [BaseException]; [KeyboardInterrupt], [SystemExit] and
    [GeneratorExit] are not below [Exception]. *)
Inductive exn_class :=
| ExceptionClass (c : exception_class)
| KeyboardInterrupt | SystemExit | GeneratorExit.

(** A raised object: its class, [str(ex)], and [ex.stderr] (the captured
    error output of a [CalledProcessError]; empty otherwise). *)
Record exn := mk_exn {
  exn_class_of : exn_class;
  exn_text : string;
  exn_stderr : string
}.

(** What a system call can raise: always below [Exception]. *)
Record os_error := mk_os_error {
  err_class : exception_class;
  err_text : string;
  err_stderr : string
}.

Definition exn_of_error (e : os_error) : exn :=
  mk_exn (ExceptionClass (err_class e)) (err_text e) (err_stderr e).

(** [isinstance(ex, Exception)] *)
Definition is_Exception (e : exn) : bool :=
  match exn_class_of e with ExceptionClass _ => true | _ => false end.

Definition is_class (c : exception_class) (e : exn) : bool :=
  match exn_class_of e, c with
  | ExceptionClass EOFError, EOFError
  | ExceptionClass CalledProcessError, CalledProcessError
  | ExceptionClass FileNotFoundError, FileNotFoundError
  | ExceptionClass PermissionError, PermissionError
  | ExceptionClass OSError, OSError
  | ExceptionClass AttributeError, AttributeError
  | ExceptionClass ValueError, ValueError
  | ExceptionClass TypeError, TypeError
  | ExceptionClass RuntimeError, RuntimeError => true
  | _, _ => false
  end.

Definition is_KeyboardInterrupt (e : exn) : bool :=
  match exn_class_of e with KeyboardInterrupt => true | _ => false end.

(** ** The environment *)

(** One observable step of the process, in the order it happened. *)
Inductive event :=
| EvStdout (text : string)          (* written to sys.stdout *)
| EvStdin (line : string)           (* a line handed to input() *)
| EvStdinEOF                        (* input() met the end of the stream *)
| EvPathExists (path : string)
| EvWalk (top : string)
| EvRemove (path : string)
| EvRmdir (path : string)
| EvMkdir (path : string)
| EvSubprocessRun (cmd : list string)
| EvSHEmptyRecycleBinW (flags : Z)
| EvThreadStart
| EvEventSet
| EvThreadJoin
| EvSleep (milliseconds : Z).

Definition history := list event.

(** The events that can change the system: deleting, creating, the shell
    API, and every launch of an external process. *)
Definition mutating (e : event) : bool :=
  match e with
  | EvRemove _ | EvRmdir _ | EvMkdir _
  | EvSubprocessRun _ | EvSHEmptyRecycleBinW _ => true
  | _ => false
  end.

Definition walk_entry : Type := string * list string * list string.

(** The answers of the operating system, each given the history so far. *)
Record OS := mk_OS {
  os_environ_get : history -> string -> option string;
  tempfile_gettempdir : history -> os_error + string;
  os_path_abspath : history -> string -> string;
  os_path_expanduser : history -> string -> string;
  os_path_join : string -> string -> string;
  os_path_exists : history -> string -> bool;
  os_walk_bottom_up : history -> string -> list walk_entry;
  os_remove : history -> string -> option os_error;
  os_rmdir : history -> string -> option os_error;
  os_mkdir : history -> string -> option os_error;
  (* subprocess.run(cmd, check=True, capture_output=True, text=True):
     the captured standard output, or what it raised *)
  subprocess_run : history -> list string -> os_error + string;
  (* ctypes.windll.shell32.SHEmptyRecycleBinW(None, None, flags) *)
  SHEmptyRecycleBinW : history -> Z -> os_error + Z;
  (* time.time(), in milliseconds *)
  time_time : history -> Z;
  (* how often the indicator finds the completion flag still unset *)
  spinner_polls : history -> nat
}.

Record World := mk_World {
  os : OS;
  trace : history;
  stdin : list string;
  launched_interactive : bool
}.

Definition log (evs : list event) (w : World) : World :=
  mk_World (os w) (trace w ++ evs)%list (stdin w) (launched_interactive w).

(** ** The monad *)

Inductive outcome (A : Type) :=
| Ok (a : A)
| Raised (e : exn).
Arguments Ok {A} a.
Arguments Raised {A} e.

Definition M (A : Type) : Type := World -> outcome A * World.

Definition ret {A} (a : A) : M A := fun w => (Ok a, w).

Definition bind {A B} (c : M A) (k : A -> M B) : M B :=
  fun w => match c w with
           | (Ok a, w') => k a w'
           | (Raised e, w') => (Raised e, w')
           end.

Definition raise {A} (e : exn) : M A := fun w => (Raised e, w).

(** [try: body / except <catches> as ex: handler ex] *)
Definition try_except {A} (body : M A) (catches : exn -> bool)
  (handler : exn -> M A) : M A :=
  fun w => match body w with
           | (Raised e, w') =>
               if catches e then handler e w' else (Raised e, w')
           | r => r
           end.

(** [try: body / finally: final] *)
Definition try_finally {A} (body : M A) (final : M unit) : M A :=
  fun w => match body w with
           | (r, w') =>
               match final w' with
               | (Ok _, w'') => (r, w'')
               | (Raised e, w'') => (Raised e, w'')
               end
           end.

Declare Scope monad_scope.
Delimit Scope monad_scope with monad.
Notation "x <- c1 ;; c2" := (bind c1 (fun x => c2))
  (at level 61, c1 at next level, right associativity) : monad_scope.
Notation "' pat <- c1 ;; c2" := (bind c1 (fun x => match x with pat => c2 end))
  (at level 61, pat pattern, c1 at next level, right associativity) : monad_scope.
Notation "c1 ;; c2" := (bind c1 (fun _ => c2))
  (at level 61, right associativity) : monad_scope.
Local Open Scope monad_scope.

(** [for x in l: acc = body x acc] *)
Fixpoint for_each {A S} (l : list A) (acc : S) (body : A -> S -> M S) : M S :=
  match l with
  | [] => ret acc
  | x :: rest => acc' <- body x acc ;; for_each rest acc' body
  end.

(** [for x in l: body x] *)
Fixpoint for_each_ {A} (l : list A) (body : A -> M unit) : M unit :=
  match l with
  | [] => ret tt
  | x :: rest => body x ;; for_each_ rest body
  end.

Definition emit (e : event) : M unit := fun w => (Ok tt, log [e] w).

(** Ask an oracle at the current history, then record the call. *)
Definition ask {A} (q : OS -> history -> A) (e : event) : M A :=
  fun w => (Ok (q (os w) (trace w)), log [e] w).

(** Ask an oracle without leaving an event (pure look-ups). *)
Definition peek {A} (q : OS -> history -> A) : M A :=
  fun w => (Ok (q (os w) (trace w)), w).

Definition lift_error {A} (r : os_error + A) : M A :=
  match r with inl e => raise (exn_of_error e) | inr a => ret a end.

Definition lift_status (r : option os_error) : M unit :=
  match r with Some e => raise (exn_of_error e) | None => ret tt end.

(** [sys.stdout.write(text)] *)
Definition stdout_write (text : string) : M unit := emit (EvStdout text).

(** [print(text)] *)
Definition print (text : string) : M unit := stdout_write (text ++ nl).

Definition EOF_when_reading : exn :=
  mk_exn (ExceptionClass EOFError) "EOF when reading a line" EmptyString.

(** [input(prompt)]: writes the prompt, then takes the next line, or raises
    [EOFError] when none is left. *)
Definition input (prompt : string) : M string :=
  fun w =>
    match stdin w with
    | [] => (Raised EOF_when_reading, log [EvStdout prompt; EvStdinEOF] w)
    | line :: rest =>
        (Ok line,
         mk_World (os w) (trace w ++ [EvStdout prompt; EvStdin line])%list rest
                  (launched_interactive w))
    end.

(** ** System calls *)

Definition environ_get (name : string) : M (option string) :=
  peek (fun o h => os_environ_get o h name).

Definition gettempdir : M string :=
  fun w => lift_error (tempfile_gettempdir (os w) (trace w)) w.

Definition abspath (p : string) : M string :=
  peek (fun o h => os_path_abspath o h p).

Definition expanduser (p : string) : M string :=
  peek (fun o h => os_path_expanduser o h p).

Definition path_join (a b : string) : M string :=
  peek (fun o _ => os_path_join o a b).

Definition path_exists (p : string) : M bool :=
  ask (fun o h => os_path_exists o h p) (EvPathExists p).

Definition walk (top : string) : M (list walk_entry) :=
  ask (fun o h => os_walk_bottom_up o h top) (EvWalk top).

Definition remove (p : string) : M unit :=
  r <- ask (fun o h => os_remove o h p) (EvRemove p) ;; lift_status r.

Definition rmdir (p : string) : M unit :=
  r <- ask (fun o h => os_rmdir o h p) (EvRmdir p) ;; lift_status r.

Definition mkdir (p : string) : M unit :=
  r <- ask (fun o h => os_mkdir o h p) (EvMkdir p) ;; lift_status r.

Definition run_process (cmd : list string) : M string :=
  r <- ask (fun o h => subprocess_run o h cmd) (EvSubprocessRun cmd) ;;
  lift_error r.

Definition shell_empty_recycle_bin (flags : Z) : M Z :=
  r <- ask (fun o h => SHEmptyRecycleBinW o h flags) (EvSHEmptyRecycleBinW flags) ;;
  lift_error r.

Definition time_now : M Z := peek time_time.

(** ** Action primitives *)

Definition SHERB_NOCONFIRMATION : Z := 1.
Definition SHERB_NOPROGRESSUI : Z := 2.
Definition SHERB_NOSOUND : Z := 4.

(** [a or <rest>] for a value that is a string or [None] *)
Definition or_else (a : option string) (rest : M string) : M string :=
  match a with
  | Some s => if truthy s then ret s else rest
  | None => rest
  end.

Definition get_temp_dir : M string :=
  t <- environ_get "TEMP" ;;
  p <- or_else t (t' <- environ_get "TMP" ;; or_else t' gettempdir) ;;
  abspath p.

Definition empty_recycle_bin (dry_run : bool) : M (bool * string) :=
  if dry_run
  then ret (true, "Dry-run: would call SHEmptyRecycleBinW for all drives.")
  else
    try_except
      (let flags :=
         Z.lor (Z.lor SHERB_NOCONFIRMATION SHERB_NOPROGRESSUI) SHERB_NOSOUND in
       hr <- shell_empty_recycle_bin flags ;;
       if (hr =? 0)%Z then ret (true, "Recycle Bin emptied.")
       else ret (false, "SHEmptyRecycleBinW returned HRESULT 0x" ++ format_08X hr))
      is_Exception
      (fun ex => ret (false, "Exception calling SHEmptyRecycleBinW: " ++ exn_text ex)).

Definition is_adapter_header (ln : string) : bool :=
  contains "Admin State" ln && contains "State" ln && contains "Type" ln
  && contains "Interface Name" ln.

(** The loop of [list_network_adapters] over the output lines. *)
Fixpoint parse_adapters (started : bool) (lines adapters : list string)
  : list string :=
  match lines with
  | [] => adapters
  | ln :: rest =>
      if negb started
      then parse_adapters (is_adapter_header ln) rest adapters
      else if is_empty (strip ln) then parse_adapters started rest adapters
      else
        let parts := split_ws 3 ln in
        if (List.length parts =? 4)%nat
        then parse_adapters started rest
               (List.app adapters [strip (nth 3 parts EmptyString)])
        else parse_adapters started rest adapters
  end.

Definition list_network_adapters : M (list string) :=
  try_except
    (out <- run_process ["netsh"; "interface"; "show"; "interface"] ;;
     ret (parse_adapters false (splitlines out) []))
    (is_class CalledProcessError)
    (fun _ => ret []).

(** [ex.stderr or ex], formatted *)
Definition stderr_or_text (ex : exn) : string :=
  if truthy (exn_stderr ex) then exn_stderr ex else exn_text ex.

Definition restart_adapter (adapter_name : string) (dry_run : bool)
  : M (bool * string) :=
  if dry_run
  then ret (true, "Dry-run: would restart adapter '" ++ adapter_name ++ "'.")
  else
    try_except
      (run_process ["netsh"; "interface"; "set"; "interface"; adapter_name;
                    "admin=DISABLED"] ;;
       run_process ["netsh"; "interface"; "set"; "interface"; adapter_name;
                    "admin=ENABLED"] ;;
       ret (true, "Adapter '" ++ adapter_name ++ "' restarted."))
      (is_class CalledProcessError)
      (fun ex => ret (false, "Command failed for '" ++ adapter_name ++ "': "
                             ++ stderr_or_text ex)).

Definition tcp_commands : list (list string) :=
  [ ["netsh"; "int"; "tcp"; "set"; "global"; "autotuninglevel=normal"];
    ["netsh"; "int"; "tcp"; "set"; "global"; "rss=enabled"];
    ["netsh"; "int"; "tcp"; "set"; "global"; "chimney=disabled"];
    ["netsh"; "int"; "tcp"; "set"; "global"; "ecncapability=disabled"];
    ["netsh"; "int"; "tcp"; "set"; "heuristics"; "disabled"] ].

(** One turn of the loop of [apply_tcp_optimizations]. *)
Definition tcp_step (cmd : list string) (out_lines : list string)
  : M (list string) :=
  try_except
    (run_process cmd ;;
     ret (List.app out_lines ["OK: " ++ join " " cmd]))
    (is_class CalledProcessError)
    (fun ex => ret (List.app out_lines ["FAILED: " ++ join " " cmd ++ " -> "
                                           ++ stderr_or_text ex])).

Definition apply_tcp_optimizations (dry_run : bool) : M (bool * string) :=
  let commands := tcp_commands in
  if dry_run
  then ret (true, "Dry-run: would run netsh commands:" ++ nl
                  ++ join nl (map (join " ") commands))
  else
    out_lines <- for_each commands [] tcp_step ;;
    ret (true, join nl out_lines).

(** The body of the loop of [clean_temp_dir] over one [os.walk] entry;
    the counters are [(deleted, failed)]. *)
Definition clean_entry (dry_run : bool) (entry : walk_entry)
  (counts : nat * nat) : M (nat * nat) :=
  let '(root, dirs, files) := entry in
  counts <- for_each files counts (fun name '(deleted, failed) =>
    fp <- path_join root name ;;
    if dry_run then ret (deleted + 1, failed)
    else try_except (remove fp ;; ret (deleted + 1, failed))
           is_Exception (fun _ => ret (deleted, failed + 1))) ;;
  for_each dirs counts (fun d '(deleted, failed) =>
    dp <- path_join root d ;;
    if dry_run then ret (deleted + 1, failed)
    else try_except (rmdir dp ;; ret (deleted + 1, failed))
           is_Exception (fun _ => ret (deleted, failed))).

Definition clean_temp_dir (dry_run : bool) : M (bool * string) :=
  temp_dir <- get_temp_dir ;;
  found <- path_exists temp_dir ;;
  if negb found
  then ret (false, "Temp directory '" ++ temp_dir ++ "' does not exist.")
  else
    entries <- walk temp_dir ;;
    '(deleted, failed) <- for_each entries (0, 0) (clean_entry dry_run) ;;
    ret (true, "Planned deletions: " ++ str_of_nat deleted
               ++ ". Failed deletions: " ++ str_of_nat failed ++ ".").

(** *** Wi-Fi profiles *)

Fixpoint drop (n : nat) (s : string) : string :=
  match n, s with
  | S k, String _ r => drop k r
  | _, _ => s
  end.

(** The characters a greedy [.+] takes: all up to the next line feed. *)
Fixpoint take_line (s : string) : string :=
  match s with
  | EmptyString => EmptyString
  | String c r => if Ascii.eqb c LF then EmptyString else String c (take_line r)
  end.

(** [\s*(.+)] matched at the head of [s]: the whitespace is taken greedily
    and given back one character at a time until [.+] finds a character
    that is no line feed. *)
Fixpoint group_after_spaces (s : string) : option string :=
  match s with
  | EmptyString => None
  | String c r =>
      if is_space c
      then match group_after_spaces r with
           | Some g => Some g
           | None => if Ascii.eqb c LF then None else Some (take_line s)
           end
      else Some (take_line s)
  end.

(** [\s*:\s*(.+)] matched at the head of [s] *)
Definition match_colon_group (s : string) : option string :=
  match lstrip s with
  | String ":" r => group_after_spaces r
  | _ => None
  end.

(** [re.search(label + r"\s*:\s*(.+)", text)]: group 1 of the leftmost
    match, [None] when there is none.  [label] holds no metacharacter. *)
Fixpoint search_labelled (label text : string) : option string :=
  let here :=
    if String.prefix label text
    then match_colon_group (drop (String.length label) text)
    else None in
  match here with
  | Some g => Some g
  | None =>
      match text with
      | EmptyString => None
      | String _ r => search_labelled label r
      end
  end.

(** The loop of [list_wifi_profiles] over the output lines. *)
Fixpoint parse_profiles (lines profiles : list string) : list string :=
  match lines with
  | [] => profiles
  | ln :: rest =>
      match search_labelled "All User Profile" ln with
      | Some g => parse_profiles rest (List.app profiles [strip g])
      | None => parse_profiles rest profiles
      end
  end.

Definition list_wifi_profiles : M (list string) :=
  try_except
    (out <- run_process ["netsh"; "wlan"; "show"; "profiles"] ;;
     ret (parse_profiles (splitlines out) []))
    (is_class CalledProcessError)
    (fun _ => ret []).

Definition get_wifi_password (profile : string) : M (bool * string) :=
  try_except
    (out <- run_process ["netsh"; "wlan"; "show"; "profile"; profile; "key=clear"] ;;
     match search_labelled "Key Content" out with
     | Some g => ret (true, strip g)
     | None => ret (false, "No password stored (open network or not available).")
     end)
    (is_class CalledProcessError)
    (fun ex => ret (false, "Failed to query profile: " ++ exn_text ex)).

Definition show_wifi_passwords (dry_run : bool) : M (bool * string) :=
  if dry_run
  then ret (true, "Dry-run: would list saved Wi-Fi profiles and their passwords.")
  else
    profiles <- list_wifi_profiles ;;
    match profiles with
    | [] => ret (false, "No Wi-Fi profiles found or failed to query profiles.")
    | _ =>
        out_lines <- for_each profiles [] (fun p out_lines =>
          '(ok, pw) <- get_wifi_password p ;;
          ret (List.app out_lines [p ++ ": " ++ pw])) ;;
        ret (true, join nl out_lines)
    end.

(** *** God Mode folder *)

Definition create_god_mode (dry_run : bool) : M (bool * string) :=
  home <- expanduser "~" ;;
  desktop <- path_join home "Desktop" ;;
  let guid := "GodMode.{ED7BA470-8E54-465E-825C-99712043E01C}" in
  path <- path_join desktop guid ;;
  if dry_run
  then ret (true, "Dry-run: would create '" ++ path ++ "'")
  else
    try_except
      (d <- path_exists desktop ;;
       if negb d then ret (false, "Desktop path not found: " ++ desktop)
       else
         p <- path_exists path ;;
         if negb p
         then mkdir path ;; ret (true, "Created God Mode folder: " ++ path)
         else ret (true, "God Mode folder already exists: " ++ path))
      is_Exception
      (fun ex => ret (false, "Failed to create God Mode folder: " ++ exn_text ex)).

(** ** Progress runner *)

Definition frames : list string := ["|"; "/"; "-"; backslash].

Fixpoint spaces (n : nat) : string :=
  match n with O => EmptyString | S k => String " " (spaces k) end.

(** The [while not done_event.is_set()] loop: [polls] turns are left, [i]
    frames have been painted. *)
Fixpoint spinner_loop (polls i : nat) (start : Z) (prefix : string) : M unit :=
  match polls with
  | O => ret tt
  | S k =>
      now <- time_now ;;
      (* int(time.time() - start) truncates towards zero *)
      let elapsed := Z.quot (now - start) 1000 in
      stdout_write (cr ++ prefix ++ " "
                    ++ nth (i mod List.length frames) frames EmptyString
                    ++ " Elapsed: " ++ str_of_Z elapsed ++ "s") ;;
      emit (EvSleep 120) ;;
      spinner_loop k (i + 1) start prefix
  end.

Definition _spinner_worker (prefix : string) : M unit :=
  start <- time_now ;;
  polls <- peek spinner_polls ;;
  spinner_loop polls 0 start prefix ;;
  stdout_write (cr ++ spaces 80 ++ cr).

(** The [result] dictionary of [run_with_spinner]: its entries "value"
    and "exc", each present or not. *)
Record result_dict (A : Type) := mk_result {
  result_value : option A;
  result_exc : option exn
}.
Arguments mk_result {A} _ _.
Arguments result_value {A} _.
Arguments result_exc {A} _.

(** [target()], the body of the worker thread. *)
Definition target {A} (func : M A) : M (result_dict A) :=
  try_finally
    (try_except
       (v <- func ;; ret (mk_result (Some v) None))
       is_Exception
       (fun ex => ret (mk_result None (Some ex))))
    (emit EvEventSet).

(** The worker thread from start to end.  A fault that leaves [target]
    ends the thread and nothing else: the dictionary stays empty. *)
Definition thread_run {A} (body : M (result_dict A)) : M (result_dict A) :=
  fun w => match body w with
           | (Ok r, w') => (Ok r, w')
           | (Raised _, w') => (Ok (mk_result None None), w')
           end.

(** [run_with_spinner(func, prefix=prefix)].  The worker and the indicator
    share the completion flag only, so the worker's steps are laid out
    before the frames the indicator paints while it waits.  The result is
    [result.get("value")]: [None] when the key is missing. *)
Definition run_with_spinner {A} (func : M A) (prefix : string) : M (option A) :=
  emit EvThreadStart ;;
  result <- thread_run (target func) ;;
  _spinner_worker prefix ;;
  emit EvThreadJoin ;;
  match result_exc result with
  | Some ex => raise ex
  | None => ret (result_value result)
  end.

(** ** Confirmation gate *)

Definition ensure_confirm (prompt : string) (assume_yes : bool) : M bool :=
  if assume_yes then ret true
  else
    r <- try_except
           (line <- input (prompt ++ " [y/N]: ") ;;
            ret (Some (lower (strip line))))
           (is_class EOFError)
           (fun _ => ret None) ;;
    match r with
    | None => ret false
    | Some ans => ret (mem ans ["y"; "yes"])
    end.

(** ** Selection front-end: the menu *)

Definition all_actions : list string :=
  ["temp"; "recycle"; "tcp"; "restart"; "wifi"; "godmode"].

(** The dictionary [mapping] of [interactive_menu]. *)
Definition mapping (token : string) : option string :=
  if token =? "1" then Some "temp"
  else if token =? "2" then Some "recycle"
  else if token =? "3" then Some "tcp"
  else if token =? "4" then Some "restart"
  else if token =? "5" then Some "wifi"
  else if token =? "7" then Some "godmode"
  else None.

(** [[t.strip() for t in raw.split(",") if t.strip()]] *)
Definition menu_tokens (raw : string) : list string :=
  map strip (filter (fun t => truthy (strip t)) (split_on "," raw)).

Fixpoint menu_choices (tokens choices : list string) : list string :=
  match tokens with
  | [] => choices
  | token :: rest =>
      match mapping token with
      | Some a => menu_choices rest (List.app choices [a])
      | None => menu_choices rest choices
      end
  end.

Definition menu_lines : list string :=
  [ "======================================================";
    "        Windows optimizer - Interactive Menu";
    "  Made by Sambota, Cat Eating a chips (AKA MitkoBG)";
    "======================================================";
    "Choose actions to perform (comma-separated numbers):";
    " 1) Clean %TEMP%";
    " 2) Empty Recycle Bin";
    " 3) Optimize TCP (apply recommended netsh settings)";
    " 4) Restart network adapters (list will be shown)";
    " 5) Show saved wifi passwords on PC";
    " 6) Run all";
    " 7) Create God Mode folder on Desktop" ].

Definition interactive_menu : M (list string) :=
  for_each_ menu_lines print ;;
  line <- input "Selection (e.g. 1,2): " ;;
  let raw := strip line in
  if is_empty raw then ret []
  else
    let tokens := menu_tokens raw in
    if mem "6" tokens then ret all_actions
    else ret (menu_choices tokens []).

(** ** Action orchestrator *)

(** The targets one token of the adapter selection adds. *)
Definition token_targets (adapters : list string) (tok : string) : list string :=
  let tok := strip tok in
  if is_empty tok then []
  else
    match py_int tok with
    | Some n =>
        let idx := (n - 1)%Z in
        if ((0 <=? idx) && (idx <? Z.of_nat (List.length adapters)))%Z
        then [nth (Z.to_nat idx) adapters EmptyString]
        else []
    | None => if mem tok adapters then [tok] else []
    end.

(** The loop [for tok in sel.split(",")] with its list [targets]. *)
Fixpoint collect_targets (adapters toks targets : list string) : list string :=
  match toks with
  | [] => targets
  | tok :: rest =>
      collect_targets adapters rest (List.app targets (token_targets adapters tok))
  end.

(** The resolution of a selection expression [sel], already stripped and
    not empty, against the listed adapters. *)
Definition select_targets (adapters : list string) (sel : string) : list string :=
  if lower sel =? "all" then adapters
  else collect_targets adapters (split_on "," sel) [].

(** [enumerate(l, start=i)] *)
Fixpoint enumerate {A} (i : nat) (l : list A) : list (nat * A) :=
  match l with
  | [] => []
  | x :: rest => (i, x) :: enumerate (S i) rest
  end.

Definition NoneType_unpack : exn :=
  mk_exn (ExceptionClass TypeError)
         "cannot unpack non-iterable NoneType object" EmptyString.

(** [ok, msg = r] *)
Definition unpack_pair {A B} (r : option (A * B)) : M (A * B) :=
  match r with
  | Some p => ret p
  | None => raise NoneType_unpack
  end.

(** [if cond: body] *)
Definition when (cond : bool) (body : M unit) : M unit :=
  if cond then body else ret tt.

(** The operations the orchestrator calls by name. *)
Record Primitives := mk_Primitives {
  prim_clean_temp_dir : bool -> M (bool * string);
  prim_empty_recycle_bin : bool -> M (bool * string);
  prim_apply_tcp_optimizations : bool -> M (bool * string);
  prim_list_network_adapters : M (list string);
  prim_restart_adapter : string -> bool -> M (bool * string);
  prim_show_wifi_passwords : bool -> M (bool * string);
  prim_create_god_mode : bool -> M (bool * string)
}.

Section Orchestrator.

Variable P : Primitives.
Variables dry_run assume_yes : bool.

Definition temp_block : M unit :=
  go <- ensure_confirm "Proceed to clean %TEMP%?" assume_yes ;;
  if negb go then print "Skipped %TEMP% cleanup."
  else
    r <- run_with_spinner (prim_clean_temp_dir P dry_run) "Cleaning %TEMP%..." ;;
    '(ok, msg) <- unpack_pair r ;;
    print ("Clean %TEMP% -> " ++ msg).

Definition recycle_block : M unit :=
  go <- ensure_confirm "Proceed to empty the Recycle Bin?" assume_yes ;;
  if negb go then print "Skipped Recycle Bin empty."
  else
    r <- run_with_spinner (prim_empty_recycle_bin P dry_run)
           "Emptying Recycle Bin..." ;;
    '(ok, msg) <- unpack_pair r ;;
    print ("Empty Recycle Bin -> " ++ msg).

Definition tcp_block : M unit :=
  go <- ensure_confirm "Proceed to apply TCP optimizations? (may require admin)"
          assume_yes ;;
  if negb go then print "Skipped TCP optimizations."
  else
    r <- run_with_spinner (prim_apply_tcp_optimizations P dry_run)
           "Applying TCP optimizations..." ;;
    '(ok, msg) <- unpack_pair r ;;
    print "TCP optimizations ->" ;;
    print msg.

(** The body of [for name in targets]. *)
Definition restart_one (name : string) : M unit :=
  go <- ensure_confirm
          ("Restart adapter '" ++ name
           ++ "'? This will briefly disconnect network.") assume_yes ;;
  if negb go then print ("Skipped restarting '" ++ name ++ "'.")
  else
    r <- run_with_spinner (prim_restart_adapter P name dry_run)
           ("Restarting '" ++ name ++ "'...") ;;
    '(ok, msg) <- unpack_pair r ;;
    print ("Restart '" ++ name ++ "' -> " ++ msg).

Definition restart_block : M unit :=
  adapters <- prim_list_network_adapters P ;;
  match adapters with
  | [] => print "No adapters found or failed to list adapters."
  | _ =>
      print "Network adapters:" ;;
      for_each_ (enumerate 1 adapters)
        (fun '(i, a) => print (" " ++ str_of_nat i ++ ") " ++ a)) ;;
      line <- input "Enter adapter numbers to restart (comma-separated) or 'all': " ;;
      let sel := strip line in
      if is_empty sel then print "No adapters selected; skipping restart."
      else for_each_ (select_targets adapters sel) restart_one
  end.

Definition wifi_block : M unit :=
  go <- ensure_confirm
          "Proceed to list Wi‑Fi profiles and passwords? (requires appropriate privileges)"
          assume_yes ;;
  if negb go then print "Skipped Wi‑Fi password listing."
  else
    r <- run_with_spinner (prim_show_wifi_passwords P dry_run)
           "Gathering Wi‑Fi profiles..." ;;
    '(ok, msg) <- unpack_pair r ;;
    print "Wi‑Fi profiles & passwords ->" ;;
    print msg.

Definition godmode_block : M unit :=
  go <- ensure_confirm "Create God Mode folder on Desktop?" assume_yes ;;
  if negb go then print "Skipped God Mode creation."
  else
    '(ok, msg) <- prim_create_god_mode P dry_run ;;
    print msg.

(** [run_actions], over any implementation of the primitives. *)
Definition run_actions_with (actions : list string) : M unit :=
  match actions with
  | [] => print "No actions selected."
  | _ =>
      when (mem "temp" actions) temp_block ;;
      when (mem "recycle" actions) recycle_block ;;
      when (mem "tcp" actions) tcp_block ;;
      when (mem "restart" actions) restart_block ;;
      when (mem "wifi" actions) wifi_block ;;
      when (mem "godmode" actions) godmode_block
  end.

End Orchestrator.

(** The functions of the module, as [run_actions] finds them. *)
Definition module_primitives : Primitives :=
  mk_Primitives clean_temp_dir empty_recycle_bin apply_tcp_optimizations
    list_network_adapters restart_adapter show_wifi_passwords create_god_mode.

Definition run_actions (actions : list string) (dry_run assume_yes : bool)
  : M unit :=
  run_actions_with module_primitives dry_run assume_yes actions.

(** ** Entry point *)

(** The namespace [parse_cli] returns. *)
Record Namespace := mk_Namespace {
  clean_temp : bool;
  empty_recycle : bool;
  optimize_tcp : bool;
  restart_adapters : bool;
  show_wifi : bool;
  all : bool;
  dry_run : bool;
  yes : bool
}.

(** [any([...])] over the six action flags *)
Definition cli_flags (args : Namespace) : bool :=
  existsb (fun b => b)
    [clean_temp args; empty_recycle args; optimize_tcp args;
     restart_adapters args; show_wifi args; all args].

Definition flag_actions (args : Namespace) : list string :=
  if all args then all_actions
  else
    ((if clean_temp args then ["temp"] else [])
     ++ (if empty_recycle args then ["recycle"] else [])
     ++ (if optimize_tcp args then ["tcp"] else [])
     ++ (if restart_adapters args then ["restart"] else [])
     ++ (if show_wifi args then ["wifi"] else []))%list.

Definition set_launched_interactive (b : bool) : M unit :=
  fun w => (Ok tt, mk_World (os w) (trace w) (stdin w) b).

(** One turn of the [while True] loop of [main]: [true] to go round
    again, [false] after [break]. *)
Definition menu_turn (args : Namespace) : M bool :=
  actions <- interactive_menu ;;
  match actions with
  | [] =>
      line <- input "No actions selected. Press Enter to exit, or type 'r' to return to the menu: " ;;
      ret (lower (strip line) =? "r")
  | _ =>
      run_actions actions (dry_run args) (yes args) ;;
      line <- input "Press Enter to return to the menu, or type 'exit' to quit: " ;;
      ret (negb (lower (strip line) =? "exit"))
  end.

(** The loop, for at most [fuel] turns; [None] when they do not suffice. *)
Fixpoint menu_loop (fuel : nat) (args : Namespace) (w : World)
  : option (outcome unit * World) :=
  match fuel with
  | O => None
  | S k =>
      match menu_turn args w with
      | (Ok true, w') => menu_loop k args w'
      | (Ok false, w') => Some (Ok tt, w')
      | (Raised e, w') => Some (Raised e, w')
      end
  end.

(** [main()], given [args = parse_cli()].  Every turn of the menu loop
    reads at least one line, and [input] raises at the end of the stream,
    so one turn more than there are lines is enough. *)
Definition main (args : Namespace) (w : World) : option (outcome Z * World) :=
  if cli_flags args
  then Some ((run_actions (flag_actions args) (dry_run args) (yes args) ;;
              ret 0%Z) w)
  else
    match set_launched_interactive true w with
    | (_, w1) =>
        match menu_loop (S (List.length (stdin w1))) args w1 with
        | None => None
        | Some (Ok _, w2) => Some (Ok 0%Z, w2)
        | Some (Raised e, w2) => Some (Raised e, w2)
        end
    end.

(** The [__main__] block: the exit status of the process.  A fault other
    than [KeyboardInterrupt] leaves [main] uncaught: the interpreter ends
    with status 1 and the closing pause is not reached. *)
Definition script (args : Namespace) (w : World) : option (Z * World) :=
  match main args w with
  | None => None
  | Some (r, w1) =>
      let after_try : outcome Z * World :=
        match r with
        | Ok rc => (Ok rc, w1)
        | Raised e =>
            if is_KeyboardInterrupt e
            then (print (nl ++ "Interrupted by user.") ;; ret 1%Z) w1
            else (Raised e, w1)
        end in
      match after_try with
      | (Raised e, w2) => Some (1%Z, w2)
      | (Ok rc, w2) =>
          let pause : M unit :=
            try_except
              (if launched_interactive w2
               then input "Press Enter to close..." ;; ret tt
               else ret tt)
              (is_class EOFError)
              (fun _ => ret tt) in
          match pause w2 with
          | (Ok _, w3) => Some (rc, w3)
          | (Raised _, w3) => Some (1%Z, w3)
          end
      end
  end.

(** ** Observations on a run *)

Definition result_of {A} (r : outcome A * World) : outcome A := fst r.
Definition world_of {A} (r : outcome A * World) : World := snd r.


(** Everything written to standard output, in order. *)
Definition stdout_of (h : history) : list string :=
  flat_map (fun e => match e with EvStdout s => [s] | _ => [] end) h.

(** The mutating events, in order. *)
Definition effects_of (h : history) : history := filter mutating h.


(** ** A laboratory machine

    A concrete environment to run the program on: a temp directory with a
    sub-directory and a locked file, two network adapters, and a [netsh]
    that refuses one of the TCP settings. *)

Module Lab.

Definition temp : string := "C:\Temp".

Definition adapter_table : string :=
  join nl
    [ EmptyString;
      "Admin State    State          Type             Interface Name";
      "-------------------------------------------------------------------------";
      "Enabled        Connected      Dedicated        Ethernet";
      "Enabled        Disconnected   Dedicated        Wi-Fi 2";
      EmptyString ].

Definition denied : os_error :=
  mk_os_error PermissionError "[WinError 5] Access is denied" EmptyString.

Definition netsh_failed : os_error :=
  mk_os_error CalledProcessError
    "Command returned non-zero exit status 1." "Access is denied.".

Definition eq_cmd (a b : list string) : bool :=
  if list_eq_dec string_dec a b then true else false.

Definition machine : OS :=
  mk_OS
    (fun _ name => if name =? "TEMP" then Some temp else None)
    (fun _ => inr "C:\Windows\Temp")
    (fun _ p => p)
    (fun _ _ => "C:\Users\me")
    (fun a b => a ++ backslash ++ b)
    (fun _ _ => true)
    (fun _ top =>
       if top =? temp
       then [ (temp ++ backslash ++ "cache", [], ["a.tmp"]);
              (temp, ["cache"], ["b.log"; "locked.dat"]) ]
       else [])
    (fun _ p => if contains "locked" p then Some denied else None)
    (fun _ _ => None)
    (fun _ _ => None)
    (fun _ cmd =>
       if eq_cmd cmd ["netsh"; "interface"; "show"; "interface"]
       then inr adapter_table
       else if mem "rss=enabled" cmd then inl netsh_failed
       else inr "Ok.")
    (fun _ _ => inr 0%Z)
    (fun h => (Z.of_nat (List.length h) * 400)%Z)
    (fun _ => 2).

(** The same machine with an indicator that never finds work pending. *)
Definition quiet (o : OS) : OS :=
  mk_OS (os_environ_get o) (tempfile_gettempdir o) (os_path_abspath o)
    (os_path_expanduser o) (os_path_join o) (os_path_exists o)
    (os_walk_bottom_up o) (os_remove o) (os_rmdir o) (os_mkdir o)
    (subprocess_run o) (SHEmptyRecycleBinW o) (time_time o) (fun _ => 0).

(** The same machine with nothing locked: every deletion succeeds. *)
Definition tidy : OS :=
  mk_OS (os_environ_get machine) (tempfile_gettempdir machine)
    (os_path_abspath machine) (os_path_expanduser machine)
    (os_path_join machine) (os_path_exists machine)
    (os_walk_bottom_up machine) (fun _ _ => None) (os_rmdir machine)
    (os_mkdir machine) (subprocess_run machine) (SHEmptyRecycleBinW machine)
    (time_time machine) (spinner_polls machine).

(** The same machine without any of the paths asked for. *)
Definition bare : OS :=
  mk_OS (os_environ_get machine) (tempfile_gettempdir machine)
    (os_path_abspath machine) (os_path_expanduser machine)
    (os_path_join machine) (fun _ _ => false)
    (os_walk_bottom_up machine) (os_remove machine) (os_rmdir machine)
    (os_mkdir machine) (subprocess_run machine) (SHEmptyRecycleBinW machine)
    (time_time machine) (spinner_polls machine).

(** A machine on which every action fails: no path exists, [netsh] refuses
    every command, and the shell API answers E_UNEXPECTED. *)
Definition broken : OS :=
  mk_OS (os_environ_get machine) (tempfile_gettempdir machine)
    (os_path_abspath machine) (os_path_expanduser machine)
    (os_path_join machine) (fun _ _ => false)
    (os_walk_bottom_up machine) (os_remove machine) (os_rmdir machine)
    (os_mkdir machine) (fun _ _ => inl netsh_failed)
    (fun _ _ => inr (-2147418113)%Z)
    (time_time machine) (fun _ => 0).

Definition boot (o : OS) (lines : list string) : World :=
  mk_World o [] lines false.


(** The laboratory machine without a [netsh] program: launching it raises
    [FileNotFoundError]. *)
Definition not_found : os_error :=
  mk_os_error FileNotFoundError
    "[WinError 2] The system cannot find the file specified" EmptyString.

Definition no_netsh : OS :=
  mk_OS (os_environ_get machine) (tempfile_gettempdir machine)
    (os_path_abspath machine) (os_path_expanduser machine)
    (os_path_join machine) (os_path_exists machine)
    (os_walk_bottom_up machine) (os_remove machine) (os_rmdir machine)
    (os_mkdir machine) (fun _ _ => inl not_found)
    (SHEmptyRecycleBinW machine) (time_time machine) (fun _ => 0).

(** The laboratory machine with a [netsh] that disables adapters but
    refuses to enable them. *)
Definition stuck : OS :=
  mk_OS (os_environ_get machine) (tempfile_gettempdir machine)
    (os_path_abspath machine) (os_path_expanduser machine)
    (os_path_join machine) (os_path_exists machine)
    (os_walk_bottom_up machine) (os_remove machine) (os_rmdir machine)
    (os_mkdir machine)
    (fun _ cmd => if mem "admin=ENABLED" cmd then inl netsh_failed else inr "Ok.")
    (SHEmptyRecycleBinW machine) (time_time machine) (fun _ => 0).

(** The laboratory machine with two saved Wi-Fi profiles, one of them an
    open network. *)
Definition profiles_text : string :=
  join nl
    [ "Profiles on interface Wi-Fi:"; EmptyString; "User profiles";
      "-------------";
      "    All User Profile     : HomeNet";
      "    All User Profile     : Cafe Guest"; EmptyString ].

Definition key_text : string :=
  join nl
    [ "Security settings"; "-----------------";
      "    Authentication         : WPA2-Personal";
      "    Key Content            : hunter2"; EmptyString ].

Definition open_text : string :=
  join nl
    [ "Security settings"; "-----------------";
      "    Authentication         : Open"; EmptyString ].

Definition wifi : OS :=
  mk_OS (os_environ_get machine) (tempfile_gettempdir machine)
    (os_path_abspath machine) (os_path_expanduser machine)
    (os_path_join machine) (os_path_exists machine)
    (os_walk_bottom_up machine) (os_remove machine) (os_rmdir machine)
    (os_mkdir machine)
    (fun _ cmd =>
       if eq_cmd cmd ["netsh"; "wlan"; "show"; "profiles"] then inr profiles_text
       else if mem "HomeNet" cmd then inr key_text
       else if mem "key=clear" cmd then inr open_text
       else inl netsh_failed)
    (SHEmptyRecycleBinW machine) (time_time machine) (fun _ => 0).

End Lab.

(** ** Vocabulary of the specification *)

(** The canonical order of the actions. *)
Definition canonical_order : list string :=
  ["temp"; "recycle"; "tcp"; "restart"; "wifi"; "godmode"].

(** An order that keeps restart-adapters and create-godmode for the end and
    leaves the others as declared. *)
Definition restart_last_order : list string :=
  ["temp"; "recycle"; "tcp"; "wifi"; "restart"; "godmode"].

(** What the orchestrator does for one action identifier. *)
Definition action_block (P : Primitives) (dry_run assume_yes : bool)
  (a : string) : M unit :=
  if a =? "temp" then temp_block P dry_run assume_yes
  else if a =? "recycle" then recycle_block P dry_run assume_yes
  else if a =? "tcp" then tcp_block P dry_run assume_yes
  else if a =? "restart" then restart_block P dry_run assume_yes
  else if a =? "wifi" then wifi_block P dry_run assume_yes
  else if a =? "godmode" then godmode_block P dry_run assume_yes
  else ret tt.

(** The selected actions, each once, in the order of [order]. *)
Definition schedule (order actions : list string) : list string :=
  filter (fun a => mem a actions) order.

(** "For each ActionId present, in the fixed order": the orchestrator as
    the specification words it. *)
Definition run_in_order (P : Primitives) (dry_run assume_yes : bool)
  (order actions : list string) : M unit :=
  match actions with
  | [] => print "No actions selected."
  | _ => for_each_ (schedule order actions) (action_block P dry_run assume_yes)
  end.






(** [after] continues [before] within [allowed]: the same oracles and
    global flag, a history extended by events that [allowed] admits, and an
    input stream that lost lines at its front only. *)
Definition extends (allowed : event -> bool) (before after : World) : Prop :=
  os after = os before
  /\ launched_interactive after = launched_interactive before
  /\ (exists evs, trace after = (trace before ++ evs)%list
                  /\ forallb allowed evs = true)
  /\ (exists k, stdin after = skipn k (stdin before)).

(** A computation keeps to the frame [allowed]. *)
Definition frame (allowed : event -> bool) {A} (c : M A) : Prop :=
  forall w, extends allowed w (snd (c w)).

Definition any_event (e : event) : bool := true.

(** The events of the indicator: its frames and its naps. *)
Definition indicator_event (e : event) : bool :=
  match e with EvStdout _ | EvSleep _ => true | _ => false end.

Definition clear_line : string := cr ++ spaces 80 ++ cr.

(** The answer of [netsh] to the [i]-th TCP command of a real run started
    in [w]: the history has grown by the launches before it. *)
Definition tcp_answer (w : World) (i : nat) : os_error + string :=
  subprocess_run (os w)
    (trace w ++ map EvSubprocessRun (firstn i tcp_commands))%list
    (nth i tcp_commands []).

(** A computation that never raises. *)
Definition returns {A} (c : M A) : Prop :=
  forall w, exists a w', c w = (Ok a, w').

(** A computation whose faults all satisfy [which]. *)
Definition raises_only (which : exn -> bool) {A} (c : M A) : Prop :=
  forall w e w', c w = (Raised e, w') -> which e = true.

(** The table of the simple actions: the prompt of the gate, the primitive,
    whether it goes through the progress runner, and the lines printed once
    the primitive has returned [msg]. *)
Definition simple_actions : list string :=
  ["temp"; "recycle"; "tcp"; "wifi"; "godmode"].

Definition gate_prompt (a : string) : string :=
  if a =? "temp" then "Proceed to clean %TEMP%?"
  else if a =? "recycle" then "Proceed to empty the Recycle Bin?"
  else if a =? "tcp" then "Proceed to apply TCP optimizations? (may require admin)"
  else if a =? "wifi" then
    "Proceed to list Wi‑Fi profiles and passwords? (requires appropriate privileges)"
  else "Create God Mode folder on Desktop?".

Definition primitive_for (P : Primitives) (a : string) : bool -> M (bool * string) :=
  if a =? "temp" then prim_clean_temp_dir P
  else if a =? "recycle" then prim_empty_recycle_bin P
  else if a =? "tcp" then prim_apply_tcp_optimizations P
  else if a =? "wifi" then prim_show_wifi_passwords P
  else prim_create_god_mode P.

Definition via_runner (a : string) : bool := negb (a =? "godmode").


Definition printed (lines : list string) : list event :=
  map (fun l => EvStdout (l ++ nl)) lines.

(** The events of the progress runner around its primitive. *)
Definition runner_event (e : event) : bool :=
  match e with
  | EvThreadStart | EvEventSet | EvThreadJoin | EvStdout _ | EvSleep _ => true
  | _ => false
  end.

(** The world in which the primitive of a confirmed action starts. *)
Definition primitive_start (a : string) (w : World) : World :=
  if via_runner a then log [EvThreadStart] w else w.

(** "Any recognized command-line flag is present": one of the eight. *)
Definition any_flag (args : Namespace) : bool :=
  cli_flags args || dry_run args || yes args.

(** The command line [--dry-run] and nothing else. *)
Definition only_dry_run : Namespace :=
  mk_Namespace false false false false false false true false.

(** ** Further vocabulary *)

(** The line a simple action prints when its confirmation is declined. *)
Definition skip_line (a : string) : string :=
  if a =? "temp" then "Skipped %TEMP% cleanup."
  else if a =? "recycle" then "Skipped Recycle Bin empty."
  else if a =? "tcp" then "Skipped TCP optimizations."
  else if a =? "wifi" then "Skipped Wi‑Fi password listing."
  else "Skipped God Mode creation.".

(** What a block raises when its primitive raised [e]: behind the runner a
    fault that is no [Exception] is lost and the unpacking of [None]
    raises in its place. *)
Definition block_fault (a : string) (e : exn) : exn :=
  if via_runner a && negb (is_Exception e) then NoneType_unpack else e.

(** The numbered lines of the adapter listing. *)
Definition numbered (adapters : list string) : list string :=
  map (fun ia : nat * string =>
         let '(i, a) := ia in " " ++ str_of_nat i ++ ") " ++ a)
      (enumerate 1 adapters).

Definition selection_prompt : string :=
  "Enter adapter numbers to restart (comma-separated) or 'all': ".



(** No character of the string satisfies [p]. *)
Fixpoint free_of (p : ascii -> bool) (s : string) : bool :=
  match s with
  | EmptyString => true
  | String c r => negb (p c) && free_of p r
  end.



(** The two commands of [restart_adapter]. *)
Definition disable_cmd (adapter_name : string) : list string :=
  ["netsh"; "interface"; "set"; "interface"; adapter_name; "admin=DISABLED"].
Definition enable_cmd (adapter_name : string) : list string :=
  ["netsh"; "interface"; "set"; "interface"; adapter_name; "admin=ENABLED"].

(** The desktop directory and the God Mode folder as [create_god_mode]
    names them in the world [w]. *)
Definition god_mode_desktop (w : World) : string :=
  os_path_join (os w) (os_path_expanduser (os w) (trace w) "~") "Desktop".
Definition god_mode_path (w : World) : string :=
  os_path_join (os w) (god_mode_desktop w)
    "GodMode.{ED7BA470-8E54-465E-825C-99712043E01C}".






(** The command of [get_wifi_password]. *)
Definition password_cmd (profile : string) : list string :=
  ["netsh"; "wlan"; "show"; "profile"; profile; "key=clear"].

(** The line [show_wifi_passwords] writes for a profile. *)
Definition profile_report (entry : string * string) : string :=
  let '(p, pw) := entry in p ++ ": " ++ pw.

Definition is_LF (c : ascii) : bool := Ascii.eqb c LF.


(** *** What [netsh] prints *)





















Definition selection_question : string := "Selection (e.g. 1,2): ".


(** Events away from the console: anything but a write to [sys.stdout] or
    a read from [sys.stdin]. *)
Definition off_console (e : event) : bool :=
  match e with
  | EvStdout _ | EvStdin _ | EvStdinEOF => false
  | _ => true
  end.

(** Events that take nothing from [sys.stdin]. *)
Definition no_read (e : event) : bool :=
  match e with
  | EvStdin _ | EvStdinEOF => false
  | _ => true
  end.

(** A computation that only adds events of one kind to the history: the
    input stream and everything else in the world stay as they were. *)
Definition only_appends (allowed : event -> bool) {A} (c : M A) : Prop :=
  forall w, exists evs,
    snd (c w) = log evs w /\ forallb allowed evs = true.


(** The world after the menu was shown to a closed input stream. *)
Definition menu_at_eof (w : World) : World :=
  mk_World (os w)
    (List.app (trace w)
       (List.app (printed menu_lines)
          [EvStdout selection_question; EvStdinEOF]))
    [] true.

Definition closing_question : string := "Press Enter to close...".


(** An answer of [subprocess.run(..., check=True)] that
    [apply_tcp_optimizations] takes in its stride: the command ran, with
    exit status zero or not.  Any other answer is a fault of the launch
    itself, such as a missing program. *)
Definition command_ran (r : os_error + string) : bool :=
  match r with
  | inr _ => true
  | inl e => is_class CalledProcessError (exn_of_error e)
  end.

(** The answer to the [i]-th of the commands [cmds] launched one after the
    other from [w]. *)
Definition nth_answer (w : World) (cmds : list (list string)) (i : nat)
  : os_error + string :=
  subprocess_run (os w)
    (List.app (trace w) (map EvSubprocessRun (firstn i cmds)))
    (nth i cmds []).







(** * Properties *)

(** ** The monad *)

Lemma bind_ok {A B} (c : M A) (k : A -> M B) w a w' :
  c w = (Ok a, w') -> bind c k w = k a w'.
Proof. intros H. unfold bind. rewrite H. reflexivity. Qed.

Lemma bind_raised {A B} (c : M A) (k : A -> M B) w e w' :
  c w = (Raised e, w') -> bind c k w = (Raised e, w').
Proof. intros H. unfold bind. rewrite H. reflexivity. Qed.

Lemma log_log evs evs' w : log evs' (log evs w) = log (evs ++ evs')%list w.
Proof. unfold log. simpl. rewrite <- app_assoc. reflexivity. Qed.

Lemma print_run text w : print text w = (Ok tt, log [EvStdout (text ++ nl)] w).
Proof. reflexivity. Qed.

(** ** Confirmation gate *)

Section Letters.

Local Open Scope char_scope.




End Letters.

Lemma lower_empty s : lower s = EmptyString -> s = EmptyString.
Proof. destruct s; [reflexivity | discriminate]. Qed.



Lemma mem_In x l : mem x l = true <-> In x l.
Proof.
  unfold mem. rewrite existsb_exists. split.
  - intros [y [Hy E]]. apply String.eqb_eq in E. subst. exact Hy.
  - intros H. exists x. split; [exact H | apply String.eqb_refl].
Qed.



(** ** The empty selection *)

(** C8. With an empty action set the orchestrator prints the one notice
    "No actions selected." and returns: nothing else is appended to the
    history, no line is read, and no gate, runner or primitive is
    reached, whatever the primitives are. *)
Theorem C8_empty_selection (P : Primitives) (dry_run assume_yes : bool)
  (w : World) :
  run_actions_with P dry_run assume_yes [] w
  = (Ok tt, log [EvStdout ("No actions selected." ++ nl)] w)
  /\ run_actions [] dry_run assume_yes w
     = (Ok tt, log [EvStdout ("No actions selected." ++ nl)] w).
Proof. split; reflexivity. Qed.

(** ** Adapter selection *)

Lemma collect_targets_flat adapters toks targets :
  collect_targets adapters toks targets
  = (targets ++ flat_map (token_targets adapters) toks)%list.
Proof.
  revert targets. induction toks as [|tok rest IH]; intros targets; cbn.
  - rewrite app_nil_r. reflexivity.
  - rewrite IH, <- app_assoc. reflexivity.
Qed.

Lemma split_on_single c r :
  split_on "," (String c r) = [String c r]
  <-> Ascii.eqb c "," = false /\ split_on "," r = [r].
Proof.
  cbn [split_on]. destruct (Ascii.eqb c ",") eqn:E.
  - split; [discriminate | intros [H _]; discriminate H].
  - destruct (split_on "," r) as [|x t] eqn:Er.
    + destruct r; [cbn in Er; discriminate Er|].
      split; [intros H; discriminate H | intros [_ H]; discriminate H].
    + split.
      * intros H. injection H as -> ->. auto.
      * intros [_ H]. injection H as -> ->. reflexivity.
Qed.

Lemma space_not_comma c : is_space c = true -> Ascii.eqb c "," = false.
Proof.
  destruct (Ascii.eqb_spec c ","%char) as [->|]; [discriminate | reflexivity].
Qed.

Lemma digit_not_comma c : is_digit c = true -> Ascii.eqb c "," = false.
Proof.
  destruct (Ascii.eqb_spec c ","%char) as [->|]; [discriminate | reflexivity].
Qed.

Lemma digits_val_no_comma s : forall acc b n,
  digits_val acc b s = Some n -> split_on "," s = [s].
Proof.
  induction s as [|c r IH]; intros acc b n H; [reflexivity|].
  cbn [digits_val] in H. apply split_on_single.
  destruct (is_digit c) eqn:Ed.
  - split; [apply digit_not_comma, Ed | eapply IH, H].
  - destruct (Ascii.eqb_spec c "_"%char) as [->|]; [|discriminate H].
    destruct b; [|discriminate H].
    split; [reflexivity | eapply IH, H].
Qed.

Lemma lstrip_no_comma s :
  split_on "," (lstrip s) = [lstrip s] -> split_on "," s = [s].
Proof.
  induction s as [|c r IH]; [auto|]. cbn [lstrip].
  destruct (is_space c) eqn:Es; [|auto].
  intros H. apply split_on_single. split; [apply space_not_comma, Es | auto].
Qed.

Lemma rstrip_no_comma s :
  split_on "," (rstrip s) = [rstrip s] -> split_on "," s = [s].
Proof.
  induction s as [|c r IH]; [auto|]. cbn [rstrip].
  destruct (rstrip r) as [|c' r'] eqn:Er.
  - intros H. apply split_on_single. split; [|apply IH; reflexivity].
    destruct (is_space c) eqn:Es; [apply space_not_comma, Es|].
    apply split_on_single in H. apply H.
  - intros H. apply split_on_single in H. destruct H as [Hc Hr].
    apply split_on_single. auto.
Qed.

Lemma py_int_no_comma s n : py_int s = Some n -> split_on "," s = [s].
Proof.
  unfold py_int, strip. intros H.
  apply lstrip_no_comma, rstrip_no_comma.
  destruct (rstrip (lstrip s)) as [|c r] eqn:E; [reflexivity|].
  assert (Hr : exists acc b m, digits_val acc b r = Some m
                               \/ digits_val acc b (String c r) = Some m).
  { destruct (Ascii.eqb_spec c "+"%char) as [->|Hp].
    - exists 0%Z, false, n. left. exact H.
    - destruct (Ascii.eqb_spec c "-"%char) as [->|Hm].
      + destruct (digits_val 0 false r) as [m|] eqn:Ed; [|discriminate H].
        exists 0%Z, false, m. left. exact Ed.
      + exists 0%Z, false, n. right.
        destruct c as [[] [] [] [] [] [] [] []]; try exact H;
          exfalso; auto. }
  destruct Hr as (acc & b & m & [Hd | Hd]).
  - apply split_on_single. split; [|eapply digits_val_no_comma, Hd].
    cbn [digits_val] in H.
    destruct (Ascii.eqb_spec c ","%char) as [->|]; [|reflexivity].
    cbn in H. discriminate H.
  - eapply digits_val_no_comma, Hd.
Qed.

Lemma rstrip_idempotent s : rstrip (rstrip s) = rstrip s.
Proof.
  induction s as [|c r IH]; [reflexivity|]. cbn [rstrip].
  destruct (rstrip r) as [|c' r'] eqn:Er.
  - destruct (is_space c) eqn:Es; [reflexivity|].
    cbn. rewrite Es. reflexivity.
  - change (rstrip (String c (String c' r')))
      with (match rstrip (String c' r') with
            | EmptyString => if is_space c then EmptyString else str1 c
            | String _ _ as t => String c t
            end).
    rewrite IH. reflexivity.
Qed.

Lemma lstrip_head s :
  lstrip s = EmptyString
  \/ exists c r, lstrip s = String c r /\ is_space c = false.
Proof.
  induction s as [|c r IH]; [left; reflexivity|]. cbn [lstrip].
  destruct (is_space c) eqn:Es; [exact IH|].
  right. exists c, r. auto.
Qed.

Lemma strip_idempotent s : strip (strip s) = strip s.
Proof.
  unfold strip.
  assert (H : lstrip (rstrip (lstrip s)) = rstrip (lstrip s)).
  { destruct (lstrip_head s) as [-> | (c & r & -> & Es)]; [reflexivity|].
    cbn [rstrip].
    destruct (rstrip r); rewrite ?Es; unfold str1; cbn [lstrip]; rewrite Es;
      reflexivity. }
  rewrite H. apply rstrip_idempotent.
Qed.

Lemma py_int_strip s : py_int (strip s) = py_int s.
Proof. unfold py_int. rewrite strip_idempotent. reflexivity. Qed.

Lemma strip_no_comma s :
  split_on "," (strip s) = [strip s] -> split_on "," s = [s].
Proof. intros H. apply lstrip_no_comma, rstrip_no_comma, H. Qed.

Section LettersOfAll.

Local Open Scope char_scope.

Lemma lower_char_a c : lower_char c = "a" -> c = "a" \/ c = "A".
Proof.
  destruct c as [[] [] [] [] [] [] [] []]; cbn; intros H;
    try discriminate H; auto.
Qed.

Lemma lower_char_l c : lower_char c = "l" -> c = "l" \/ c = "L".
Proof.
  destruct c as [[] [] [] [] [] [] [] []]; cbn; intros H;
    try discriminate H; auto.
Qed.

End LettersOfAll.

(** A spelling of "all" is no integer. *)
Lemma all_not_int s : lower s = "all" -> py_int s = None.
Proof.
  destruct s as [|a [|b [|c r]]]; try discriminate. cbn [lower]. intros H.
  injection H as Ha Hb Hc Hr. apply lower_empty in Hr. subst r.
  destruct (lower_char_a _ Ha), (lower_char_l _ Hb), (lower_char_l _ Hc);
    subst; reflexivity.
Qed.

Lemma token_out_of_range adapters tok n :
  py_int tok = Some n ->
  (n < 1 \/ Z.of_nat (List.length adapters) < n)%Z ->
  token_targets adapters tok = [].
Proof.
  intros Hn Hr. unfold token_targets.
  destruct (is_empty (strip tok)); [reflexivity|].
  rewrite py_int_strip, Hn.
  destruct ((0 <=? n - 1)%Z && (n - 1 <? Z.of_nat (List.length adapters))%Z)
    eqn:E; [|reflexivity].
  apply andb_true_iff in E. destruct E as [E1 E2].
  apply Z.leb_le in E1. apply Z.ltb_lt in E2. lia.
Qed.

(** C5. Resolution of the adapter selection, for every listed sequence:
    "all" gives the whole sequence in its order; "2" gives the second
    listed adapter and nothing else; a token that is an integer outside
    1..len gives no target, alone (the selection resolves to the empty
    sequence) or among other tokens (the targets are those of the other
    tokens).  The resolution is a total function: no fault can leave it. *)
Theorem C5_adapter_selection (adapters : list string) :
  select_targets adapters "all" = adapters
  /\ select_targets adapters "2"
     = match adapters with _ :: second :: _ => [second] | _ => [] end
  /\ (forall tok n,
        py_int tok = Some n ->
        (n < 1 \/ Z.of_nat (List.length adapters) < n)%Z ->
        select_targets adapters tok = []
        /\ forall before after,
             collect_targets adapters (before ++ tok :: after)%list []
             = collect_targets adapters (before ++ after)%list []).
Proof.
  split; [reflexivity | split].
  - destruct adapters as [|a1 [|a2 rest]]; try reflexivity.
    unfold select_targets.
    change (lower "2" =? "all") with false. cbv iota.
    change (split_on "," "2") with ["2"].
    rewrite collect_targets_flat. cbn [flat_map List.app].
    rewrite app_nil_r. unfold token_targets.
    change (py_int (strip "2")) with (Some 2%Z).
    change (is_empty (strip "2")) with false. cbv iota.
    destruct ((0 <=? 2 - 1)%Z
              && (2 - 1 <? Z.of_nat (List.length (a1 :: a2 :: rest)))%Z) eqn:E.
    + reflexivity.
    + apply andb_false_iff in E. destruct E as [E | E].
      * discriminate E.
      * apply Z.ltb_ge in E. cbn [List.length] in E. lia.
  - intros tok n Hn Hr. split.
    + unfold select_targets.
      destruct (lower tok =? "all") eqn:E.
      * apply String.eqb_eq, all_not_int in E. congruence.
      * rewrite (py_int_no_comma _ _ Hn). cbn.
        rewrite (token_out_of_range _ _ _ Hn Hr). reflexivity.
    + intros before after. rewrite !collect_targets_flat, !flat_map_app.
      cbn [flat_map]. rewrite (token_out_of_range _ _ _ Hn Hr). reflexivity.
Qed.

(** The selection "7" against two listed adapters. *)
Lemma C5_adapter_selection_witness :
  select_targets ["Ethernet"; "Wi-Fi 2"] "7" = []
  /\ forall before after,
       collect_targets ["Ethernet"; "Wi-Fi 2"] (before ++ "7" :: after)%list []
       = collect_targets ["Ethernet"; "Wi-Fi 2"] (before ++ after)%list [].
Proof.
  apply (proj2 (proj2 (C5_adapter_selection ["Ethernet"; "Wi-Fi 2"])) "7" 7%Z).
  - reflexivity.
  - right. reflexivity.
Defined.

(** ** Frames *)

Section Frames.

Variable allowed : event -> bool.

Lemma extends_refl w : extends allowed w w.
Proof.
  repeat split; try reflexivity.
  - exists []. rewrite app_nil_r. auto.
  - exists 0. reflexivity.
Qed.

Lemma extends_trans w1 w2 w3 :
  extends allowed w1 w2 -> extends allowed w2 w3 -> extends allowed w1 w3.
Proof.
  intros (Ho & Hl & (evs & Ht & Ha) & (k & Hs))
         (Ho' & Hl' & (evs' & Ht' & Ha') & (k' & Hs')).
  repeat split; try congruence.
  - exists (evs ++ evs')%list. split.
    + rewrite Ht', Ht, app_assoc. reflexivity.
    + rewrite forallb_app, Ha, Ha'. reflexivity.
  - exists (k + k'). rewrite Hs', Hs, skipn_skipn, Nat.add_comm. reflexivity.
Qed.

Lemma extends_log evs w :
  forallb allowed evs = true -> extends allowed w (log evs w).
Proof.
  intros H. repeat split; try reflexivity.
  - exists evs. auto.
  - exists 0. reflexivity.
Qed.

Lemma frame_ret {A} (a : A) : frame allowed (ret a).
Proof. intros w. apply extends_refl. Qed.

Lemma frame_raise {A} e : frame allowed (@raise A e).
Proof. intros w. apply extends_refl. Qed.

Lemma frame_bind {A B} (c : M A) (k : A -> M B) :
  frame allowed c -> (forall a, frame allowed (k a)) -> frame allowed (bind c k).
Proof.
  intros Hc Hk w. unfold bind. specialize (Hc w).
  destruct (c w) as [[a | e] w1]; [|exact Hc].
  eapply extends_trans; [exact Hc | apply Hk].
Qed.

Lemma frame_try_except {A} (body : M A) catches handler :
  frame allowed body -> (forall e, frame allowed (handler e)) ->
  frame allowed (try_except body catches handler).
Proof.
  intros Hb Hh w. unfold try_except. specialize (Hb w).
  destruct (body w) as [[a | e] w1]; [exact Hb|].
  destruct (catches e); [|exact Hb].
  eapply extends_trans; [exact Hb | apply Hh].
Qed.

Lemma frame_try_finally {A} (body : M A) final :
  frame allowed body -> frame allowed final ->
  frame allowed (try_finally body final).
Proof.
  intros Hb Hf w. unfold try_finally. specialize (Hb w).
  destruct (body w) as [r w1]. specialize (Hf w1).
  destruct (final w1) as [[u | e] w2];
    (eapply extends_trans; [exact Hb | exact Hf]).
Qed.

Lemma frame_for_each {A S} (l : list A) (body : A -> S -> M S) :
  (forall x acc, frame allowed (body x acc)) ->
  forall acc, frame allowed (for_each l acc body).
Proof.
  intros Hb. induction l as [|x rest IH]; intros acc; cbn [for_each].
  - apply frame_ret.
  - apply frame_bind; [apply Hb | intros acc'; apply IH].
Qed.

Lemma frame_for_each_ {A} (l : list A) (body : A -> M unit) :
  (forall x, frame allowed (body x)) -> frame allowed (for_each_ l body).
Proof.
  intros Hb. induction l as [|x rest IH]; cbn [for_each_].
  - apply frame_ret.
  - apply frame_bind; [apply Hb | intros _; apply IH].
Qed.

Lemma frame_emit e : allowed e = true -> frame allowed (emit e).
Proof. intros H w. apply extends_log. cbn. rewrite H. reflexivity. Qed.

Lemma frame_ask {A} (q : OS -> history -> A) e :
  allowed e = true -> frame allowed (ask q e).
Proof. intros H w. apply extends_log. cbn. rewrite H. reflexivity. Qed.

Lemma frame_peek {A} (q : OS -> history -> A) : frame allowed (peek q).
Proof. intros w. apply extends_refl. Qed.

Lemma frame_lift_error {A} (r : os_error + A) : frame allowed (lift_error r).
Proof. destruct r; [apply frame_raise | apply frame_ret]. Qed.

Lemma frame_lift_status r : frame allowed (lift_status r).
Proof. destruct r; [apply frame_raise | apply frame_ret]. Qed.

Lemma frame_gettempdir : frame allowed gettempdir.
Proof.
  intros w. unfold gettempdir.
  destruct (tempfile_gettempdir (os w) (trace w)); apply extends_refl.
Qed.

Lemma frame_when cond body : frame allowed body -> frame allowed (when cond body).
Proof. intros H. destruct cond; [exact H | apply frame_ret]. Qed.

Lemma frame_unpack_pair {A B} (r : option (A * B)) : frame allowed (unpack_pair r).
Proof. destruct r; [apply frame_ret | apply frame_raise]. Qed.

Hypothesis allowed_stdout : forall text, allowed (EvStdout text) = true.
Hypothesis allowed_stdin : forall line, allowed (EvStdin line) = true.
Hypothesis allowed_eof : allowed EvStdinEOF = true.

Lemma frame_stdout_write text : frame allowed (stdout_write text).
Proof. apply frame_emit, allowed_stdout. Qed.

Lemma frame_print text : frame allowed (print text).
Proof. apply frame_stdout_write. Qed.

Lemma frame_input prompt : frame allowed (input prompt).
Proof.
  intros w. unfold input. destruct (stdin w) as [|line rest] eqn:E.
  - apply extends_log. cbn. rewrite allowed_stdout, allowed_eof. reflexivity.
  - repeat split; try reflexivity; cbn.
    + eexists. split; [reflexivity|].
      cbn. rewrite allowed_stdout, allowed_stdin. reflexivity.
    + exists 1. rewrite E. reflexivity.
Qed.

End Frames.

Ltac frame_side := solve [reflexivity | intros; reflexivity | auto].

Ltac frame_step :=
  match goal with
  | |- frame _ (ret _) => apply frame_ret
  | |- frame _ (raise _) => apply frame_raise
  | |- frame _ (bind _ _) => apply frame_bind; [| intros ?]
  | |- frame _ (try_except _ _ _) => apply frame_try_except; [| intros ?]
  | |- frame _ (try_finally _ _) => apply frame_try_finally
  | |- frame _ (for_each _ _ _) => apply frame_for_each; intros ? ?
  | |- frame _ (for_each_ _ _) => apply frame_for_each_; intros ?
  | |- frame _ (emit _) => apply frame_emit; frame_side
  | |- frame _ (ask _ _) => apply frame_ask; frame_side
  | |- frame _ (peek _) => apply frame_peek
  | |- frame _ (lift_error _) => apply frame_lift_error
  | |- frame _ (lift_status _) => apply frame_lift_status
  | |- frame _ gettempdir => apply frame_gettempdir
  | |- frame _ (stdout_write _) => apply frame_stdout_write; frame_side
  | |- frame _ (print _) => apply frame_print; frame_side
  | |- frame _ (input _) => apply frame_input; frame_side
  | |- frame _ (when _ _) => apply frame_when
  | |- frame _ (unpack_pair _) => apply frame_unpack_pair
  | |- frame _ (if ?b then _ else _) => destruct b
  | |- frame _ (match ?x with _ => _ end) => destruct x
  | H : frame ?al ?c |- frame ?al ?c => exact H
  | H : forall x, frame ?al (?c x) |- frame ?al (?c _) => apply H
  | H : forall x y, frame ?al (?c x y) |- frame ?al (?c _ _) => apply H
  end.

Ltac frame_auto := repeat frame_step.

Ltac unfold_calls :=
  unfold environ_get, abspath, expanduser, path_join, path_exists, walk,
    remove, rmdir, mkdir, run_process, shell_empty_recycle_bin, time_now,
    or_else.

Section ModuleFrames.

Variable allowed : event -> bool.

Lemma frame_get_temp_dir : frame allowed get_temp_dir.
Proof. unfold get_temp_dir. unfold_calls. frame_auto. Qed.



Hypothesis allowed_all : forall e, allowed e = true.

Lemma frame_clean_temp_dir d : frame allowed (clean_temp_dir d).
Proof.
  unfold clean_temp_dir, clean_entry.
  apply frame_bind; [apply frame_get_temp_dir | intros temp_dir].
  unfold_calls. frame_auto.
Qed.

Lemma frame_empty_recycle_bin d : frame allowed (empty_recycle_bin d).
Proof. unfold empty_recycle_bin. unfold_calls. frame_auto. Qed.

Lemma frame_list_network_adapters : frame allowed list_network_adapters.
Proof. unfold list_network_adapters. unfold_calls. frame_auto. Qed.

Lemma frame_restart_adapter name d : frame allowed (restart_adapter name d).
Proof. unfold restart_adapter. unfold_calls. frame_auto. Qed.

Lemma frame_apply_tcp_optimizations d :
  frame allowed (apply_tcp_optimizations d).
Proof. unfold apply_tcp_optimizations, tcp_step. unfold_calls. frame_auto. Qed.

Lemma frame_show_wifi_passwords d : frame allowed (show_wifi_passwords d).
Proof.
  unfold show_wifi_passwords, list_wifi_profiles, get_wifi_password.
  unfold_calls. frame_auto.
Qed.

Lemma frame_create_god_mode d : frame allowed (create_god_mode d).
Proof. unfold create_god_mode. unfold_calls. frame_auto. Qed.

Lemma frame_spinner_loop polls : forall i start prefix,
  frame allowed (spinner_loop polls i start prefix).
Proof.
  induction polls as [|k IH]; intros i start prefix; cbn [spinner_loop].
  - apply frame_ret.
  - unfold_calls. frame_auto. apply IH.
Qed.

Lemma frame_spinner_worker prefix : frame allowed (_spinner_worker prefix).
Proof.
  unfold _spinner_worker. unfold_calls. frame_auto. apply frame_spinner_loop.
Qed.

Lemma frame_thread_run {A} (body : M (result_dict A)) :
  frame allowed body -> frame allowed (thread_run body).
Proof.
  intros H w. unfold thread_run. specialize (H w).
  destruct (body w) as [[r | e] w1]; exact H.
Qed.

Lemma frame_run_with_spinner {A} (func : M A) prefix :
  frame allowed func -> frame allowed (run_with_spinner func prefix).
Proof.
  intros H. unfold run_with_spinner. frame_auto.
  - apply frame_thread_run. unfold target. frame_auto.
  - apply frame_spinner_worker.
Qed.

Lemma frame_ensure_confirm prompt y : frame allowed (ensure_confirm prompt y).
Proof. unfold ensure_confirm. frame_auto. Qed.

Lemma frame_run_actions actions d y : frame allowed (run_actions actions d y).
Proof.
  unfold run_actions, run_actions_with.
  destruct actions as [|a rest]; [frame_auto|].
  unfold temp_block, recycle_block, tcp_block, restart_block, restart_one,
    wifi_block, godmode_block, module_primitives.
  cbn [prim_clean_temp_dir prim_empty_recycle_bin prim_apply_tcp_optimizations
       prim_list_network_adapters prim_restart_adapter prim_show_wifi_passwords
       prim_create_god_mode].
  repeat first
    [ apply frame_ensure_confirm
    | apply frame_run_with_spinner
    | apply frame_clean_temp_dir
    | apply frame_empty_recycle_bin
    | apply frame_apply_tcp_optimizations
    | apply frame_list_network_adapters
    | apply frame_restart_adapter
    | apply frame_show_wifi_passwords
    | apply frame_create_god_mode
    | frame_step ].
Qed.

End ModuleFrames.

(** ** Cleaning the temp directory *)










Lemma returns_ask {A} (q : OS -> history -> A) e : returns (ask q e).
Proof. intros w. unfold ask. eauto. Qed.




(** Without a temp directory to name, nothing is returned. *)
Lemma clean_temp_dir_raises d w e :
  result_of (get_temp_dir w) = Raised e ->
  result_of (clean_temp_dir d w) = Raised e.
Proof.
  intros H. unfold result_of in *. unfold clean_temp_dir.
  destruct (get_temp_dir w) as [r w0] eqn:E. cbn [fst] in H. subst r.
  rewrite (bind_raised _ _ _ _ _ E). reflexivity.
Qed.

(** A real run on the laboratory machine: one of the three files is
    locked, and the call still reports success. *)
Example clean_temp_dir_lab :
  result_of (clean_temp_dir false (Lab.boot Lab.machine []))
  = Ok (true, "Planned deletions: 3. Failed deletions: 1.").
Proof. reflexivity. Qed.


(** ** Dry runs *)











(** On a machine where every deletion succeeds, the dry run and the real
    run of [clean_temp_dir] report the very same message, which carries no
    "Dry-run:" marker; only the real run has deleted. *)
Example clean_temp_dir_same_report :
  result_of (clean_temp_dir true (Lab.boot Lab.tidy []))
  = Ok (true, "Planned deletions: 4. Failed deletions: 0.")
  /\ result_of (clean_temp_dir false (Lab.boot Lab.tidy []))
     = Ok (true, "Planned deletions: 4. Failed deletions: 0.")
  /\ effects_of (trace (world_of (clean_temp_dir true (Lab.boot Lab.tidy []))))
     = []
  /\ effects_of (trace (world_of (clean_temp_dir false (Lab.boot Lab.tidy []))))
     = [EvRemove "C:\Temp\cache\a.tmp"; EvRemove "C:\Temp\b.log";
        EvRemove "C:\Temp\locked.dat"; EvRmdir "C:\Temp\cache"].
Proof. repeat split; reflexivity. Qed.


Example clean_temp_dir_missing_dry :
  result_of (clean_temp_dir true (Lab.boot Lab.bare []))
  = Ok (false, "Temp directory 'C:\Temp' does not exist.").
Proof. reflexivity. Qed.

(** ** TCP optimizations *)

Lemma prefix_append a x : String.prefix a (a ++ x) = true.
Proof.
  induction a as [|c a IH]; [destruct x; reflexivity|].
  cbn. destruct (ascii_dec c c) as [_ | N]; [exact IH | destruct N; reflexivity].
Qed.

Lemma tcp_step_run cmd out_lines w :
  tcp_step cmd out_lines w
  = match subprocess_run (os w) (trace w) cmd with
    | inr _ =>
        (Ok (List.app out_lines ["OK: " ++ join " " cmd]),
         log [EvSubprocessRun cmd] w)
    | inl e =>
        if is_class CalledProcessError (exn_of_error e)
        then (Ok (List.app out_lines
                    ["FAILED: " ++ join " " cmd ++ " -> "
                     ++ stderr_or_text (exn_of_error e)]),
              log [EvSubprocessRun cmd] w)
        else (Raised (exn_of_error e), log [EvSubprocessRun cmd] w)
    end.
Proof.
  unfold tcp_step, try_except, run_process, bind, ask, lift_error, ret, raise.
  destruct (subprocess_run (os w) (trace w) cmd) as [e | out]; [|reflexivity].
  cbn. destruct (is_class CalledProcessError (exn_of_error e)); reflexivity.
Qed.

(** The loop of [apply_tcp_optimizations], when it ends without a fault:
    one line per command, "FAILED: ..." exactly for the commands that
    [netsh] refused. *)
Lemma tcp_loop_report cmds : forall out_lines w lines w',
  for_each cmds out_lines tcp_step w = (Ok lines, w') ->
  exists new,
    lines = List.app out_lines new
    /\ List.length new = List.length cmds
    /\ forall i, i < List.length cmds ->
         (String.prefix "FAILED: " (nth i new EmptyString) = true
          <-> exists e,
                subprocess_run (os w)
                  (List.app (trace w) (map EvSubprocessRun (firstn i cmds)))
                  (nth i cmds []) = inl e).
Proof.
  induction cmds as [|cmd rest IH]; intros out_lines w lines w' H.
  - cbn in H. injection H as <- <-. exists []. rewrite app_nil_r.
    repeat split; intros; cbn in *; lia.
  - cbn [for_each] in H. unfold bind at 1 in H. rewrite tcp_step_run in H.
    assert (Hstep : exists line,
               for_each rest (List.app out_lines [line]) tcp_step
                 (log [EvSubprocessRun cmd] w) = (Ok lines, w')
               /\ (String.prefix "FAILED: " line = true
                   <-> exists e, subprocess_run (os w) (trace w) cmd = inl e)).
    { destruct (subprocess_run (os w) (trace w) cmd) as [e | out].
      - destruct (is_class CalledProcessError (exn_of_error e));
          [|discriminate H].
        eexists. split; [exact H|].
        split; [eauto | intros _; apply prefix_append].
      - eexists. split; [exact H|].
        split; [discriminate | intros [e He]; discriminate He]. }
    destruct Hstep as (line & Hrest & Hline).
    destruct (IH _ _ _ _ Hrest) as (new & Hl & Hn & Hi).
    exists (line :: new). split; [|split].
    + rewrite Hl, <- app_assoc. reflexivity.
    + cbn. rewrite Hn. reflexivity.
    + intros [|i] Hlt.
      * cbn [nth firstn map]. rewrite app_nil_r. exact Hline.
      * cbn [nth firstn map]. cbn [List.length] in Hlt.
        rewrite (Hi i) by lia. cbn [log trace os].
        rewrite <- app_assoc. reflexivity.
Qed.

(** C9. Whenever [apply_tcp_optimizations] returns, its success flag is
    [True].  In a real run the message then has one line per command, and
    the line of a command starts with "FAILED: " exactly when [netsh]
    refused that command: refusals show in the text only, never in the
    flag. *)
Theorem C9_tcp_always_success (d : bool) (w w' : World) (ok : bool)
  (msg : string) :
  apply_tcp_optimizations d w = (Ok (ok, msg), w') ->
  ok = true
  /\ (d = false ->
      exists lines,
        msg = join nl lines
        /\ List.length lines = 5
        /\ forall i, i < 5 ->
             (String.prefix "FAILED: " (nth i lines EmptyString) = true
              <-> exists e, tcp_answer w i = inl e)).
Proof.
  intros H. unfold apply_tcp_optimizations in H. destruct d.
  - injection H as <- _ _. split; [reflexivity | discriminate].
  - unfold bind in H.
    destruct (for_each tcp_commands [] tcp_step w) as [[lines | e] w1] eqn:E;
      [|discriminate H].
    injection H as <- <- <-. split; [reflexivity | intros _].
    destruct (tcp_loop_report _ _ _ _ _ E) as (new & Hl & Hn & Hi).
    cbn [List.app] in Hl. subst new.
    exists lines. split; [reflexivity | split; [exact Hn | exact Hi]].
Qed.

(** On the laboratory machine [netsh] refuses the second command. *)
Lemma C9_tcp_always_success_witness :
  true = true
  /\ (false = false ->
      exists lines,
        join nl
          [ "OK: netsh int tcp set global autotuninglevel=normal";
            "FAILED: netsh int tcp set global rss=enabled -> Access is denied.";
            "OK: netsh int tcp set global chimney=disabled";
            "OK: netsh int tcp set global ecncapability=disabled";
            "OK: netsh int tcp set heuristics disabled" ]
        = join nl lines
        /\ List.length lines = 5
        /\ forall i, i < 5 ->
             (String.prefix "FAILED: " (nth i lines EmptyString) = true
              <-> exists e, tcp_answer (Lab.boot Lab.machine []) i = inl e)).
Proof.
  apply (C9_tcp_always_success false (Lab.boot Lab.machine [])
           (world_of (apply_tcp_optimizations false (Lab.boot Lab.machine [])))).
  reflexivity.
Defined.

(** ** Progress runner *)

(** The indicator loop paints and naps, nothing else, and always ends. *)
Lemma spinner_loop_run polls : forall i start prefix w,
  exists painted,
    spinner_loop polls i start prefix w = (Ok tt, log painted w)
    /\ forallb indicator_event painted = true
    /\ List.length painted = 2 * polls.
Proof.
  induction polls as [|k IH]; intros i start prefix w.
  - exists []. unfold log. rewrite app_nil_r. destruct w. repeat split.
  - cbn [spinner_loop]. unfold bind at 1. unfold time_now at 1, peek at 1.
    unfold bind at 1. unfold stdout_write at 1, emit at 1.
    unfold bind at 1. unfold emit at 1.
    match goal with
    | |- context [spinner_loop k ?i' start prefix ?w'] =>
        destruct (IH i' start prefix w') as (painted & E & Hp & Hn);
        rewrite E
    end.
    eexists. split; [rewrite !log_log; reflexivity | split].
    + cbn. exact Hp.
    + cbn [List.app List.length]. rewrite Hn. lia.
Qed.

Lemma spinner_worker_run prefix w :
  exists painted,
    _spinner_worker prefix w = (Ok tt, log (painted ++ [EvStdout clear_line]) w)
    /\ forallb indicator_event painted = true.
Proof.
  unfold _spinner_worker. unfold bind at 1. unfold time_now at 1, peek at 1.
  unfold bind at 1. unfold peek at 1.
  destruct (spinner_loop_run (spinner_polls (os w) (trace w)) 0
              (time_time (os w) (trace w)) prefix w) as (painted & E & Hp & _).
  unfold bind. rewrite E. exists painted.
  split; [|exact Hp]. unfold stdout_write, emit. rewrite log_log. reflexivity.
Qed.

(** How a run of the progress runner ends, given how the primitive ended. *)
Lemma run_with_spinner_result {A} (func : M A) (prefix : string)
  (w w1 : World) (r : outcome A) :
  func (log [EvThreadStart] w) = (r, w1) ->
  exists painted,
    forallb indicator_event painted = true
    /\ run_with_spinner func prefix w
       = (match r with
          | Ok v => Ok (Some v)
          | Raised e => if is_Exception e then Raised e else Ok None
          end,
          log ([EvEventSet] ++ painted ++ [EvStdout clear_line; EvThreadJoin]) w1).
Proof.
  intros Hf. unfold run_with_spinner.
  unfold bind at 1. unfold emit at 1.
  assert (Ht : thread_run (target func) (log [EvThreadStart] w)
               = (Ok (match r with
                      | Ok v => mk_result (Some v) None
                      | Raised e =>
                          if is_Exception e then mk_result None (Some e)
                          else mk_result None None
                      end), log [EvEventSet] w1)).
  { unfold thread_run, target, try_finally, try_except, bind. rewrite Hf.
    destruct r as [v | e]; [reflexivity|].
    destruct (is_Exception e); reflexivity. }
  rewrite (bind_ok _ _ _ _ _ Ht).
  destruct (spinner_worker_run prefix (log [EvEventSet] w1))
    as (painted & Es & Hp).
  rewrite (bind_ok _ _ _ _ _ Es).
  exists painted. split; [exact Hp|].
  unfold bind at 1. unfold emit at 1. rewrite !log_log, <- !app_assoc.
  destruct r as [v | e]; [reflexivity|].
  destruct (is_Exception e); reflexivity.
Qed.




(** ** Orchestration *)

Lemma bind_ext {A B} (c : M A) (k k' : A -> M B) w :
  (forall a w', k a w' = k' a w') -> bind c k w = bind c k' w.
Proof.
  intros H. unfold bind. destruct (c w) as [[a | e] w1]; [apply H | reflexivity].
Qed.

Lemma bind_ret_tt (c : M unit) w : bind c (fun _ => ret tt) w = c w.
Proof. unfold bind, ret. destruct (c w) as [[[] | e] w1]; reflexivity. Qed.


Lemma for_each__ext {A} (l : list A) (body body' : A -> M unit) :
  (forall x w, body x w = body' x w) ->
  forall w, for_each_ l body w = for_each_ l body' w.
Proof.
  intros H. induction l as [|x rest IH]; intros w; [reflexivity|].
  cbn [for_each_]. unfold bind. rewrite H.
  destruct (body' x w) as [[u | e] w1]; [apply IH | reflexivity].
Qed.





Section FlagsIgnored.

Variable f : bool -> bool.
Variable P : Primitives.
Variables d y : bool.









End FlagsIgnored.

Lemma bind_assoc {A B C} (c : M A) (k : A -> M B) (k' : B -> M C) w :
  bind (bind c k) k' w = bind c (fun a => bind (k a) k') w.
Proof. unfold bind. destruct (c w) as [[a | e] w1]; reflexivity. Qed.

Lemma indicator_is_runner evs :
  forallb indicator_event evs = true -> forallb runner_event evs = true.
Proof.
  induction evs as [|e evs IH]; [reflexivity|]. cbn. intros H.
  apply andb_true_iff in H. destruct H as [He Hs].
  rewrite (IH Hs). destruct e; try discriminate He; reflexivity.
Qed.


Section BlockContracts.

Variable P : Primitives.
Variables d y : bool.





End BlockContracts.



(** The whole pass on that machine: six failures, six reports. *)
Example run_actions_all_failing :
  let r := run_actions all_actions false true (Lab.boot Lab.broken []) in
  result_of r = Ok tt
  /\ stdout_of (trace (world_of r))
     = [ clear_line;
         "Clean %TEMP% -> Temp directory 'C:\Temp' does not exist." ++ nl;
         clear_line;
         "Empty Recycle Bin -> SHEmptyRecycleBinW returned HRESULT 0x-7FFF0001" ++ nl;
         clear_line;
         "TCP optimizations ->" ++ nl;
         join nl
           [ "FAILED: netsh int tcp set global autotuninglevel=normal -> Access is denied.";
             "FAILED: netsh int tcp set global rss=enabled -> Access is denied.";
             "FAILED: netsh int tcp set global chimney=disabled -> Access is denied.";
             "FAILED: netsh int tcp set global ecncapability=disabled -> Access is denied.";
             "FAILED: netsh int tcp set heuristics disabled -> Access is denied." ]
         ++ nl;
         "No adapters found or failed to list adapters." ++ nl;
         clear_line;
         "Wi‑Fi profiles & passwords ->" ++ nl;
         "No Wi-Fi profiles found or failed to query profiles." ++ nl;
         "Desktop path not found: C:\Users\me\Desktop" ++ nl ].
Proof. split; vm_compute; reflexivity. Qed.

(** ** The canonical order *)

Lemma for_each_filter_cons {A} (keep : A -> bool) (a : A) (l : list A)
  (body : A -> M unit) w :
  for_each_ (filter keep (a :: l)) body w
  = bind (when (keep a) (body a)) (fun _ => for_each_ (filter keep l) body) w.
Proof. cbn [filter]. destruct (keep a); reflexivity. Qed.

Lemma for_each_filter_last {A} (keep : A -> bool) (a : A) (body : A -> M unit) w :
  for_each_ (filter keep [a]) body w = when (keep a) (body a) w.
Proof.
  cbn [filter]. destruct (keep a); [|reflexivity].
  cbn [for_each_ when]. apply bind_ret_tt.
Qed.

(** The six tests of [run_actions] are a walk along the canonical order. *)
Lemma run_actions_refines (P : Primitives) (d y : bool) actions w :
  run_actions_with P d y actions w
  = run_in_order P d y canonical_order actions w.
Proof.
  unfold run_actions_with, run_in_order.
  destruct actions as [|a rest]; [reflexivity|].
  unfold schedule, canonical_order.
  rewrite for_each_filter_cons. apply bind_ext. intros _ w1.
  rewrite for_each_filter_cons. apply bind_ext. intros _ w2.
  rewrite for_each_filter_cons. apply bind_ext. intros _ w3.
  rewrite for_each_filter_cons. apply bind_ext. intros _ w4.
  rewrite for_each_filter_cons. apply bind_ext. intros _ w5.
  rewrite for_each_filter_last. reflexivity.
Qed.

Lemma mem_same_members l l' :
  (forall a, In a l <-> In a l') -> forall x, mem x l = mem x l'.
Proof.
  intros H x. apply Bool.eq_true_iff_eq. rewrite !mem_In. apply H.
Qed.

(** Only the set of selected actions matters, not their order or number. *)
Lemma run_actions_same_members (P : Primitives) (d y : bool) actions actions' w :
  (forall a, In a actions <-> In a actions') ->
  run_actions_with P d y actions w = run_actions_with P d y actions' w.
Proof.
  intros H. pose proof (mem_same_members _ _ H) as Hm.
  unfold run_actions_with.
  destruct actions as [|a rest], actions' as [|a' rest'].
  - reflexivity.
  - exfalso. apply (proj2 (H a')). left. reflexivity.
  - exfalso. apply (proj1 (H a)). left. reflexivity.
  - rewrite !Hm. reflexivity.
Qed.

Lemma schedule_godmode_last actions :
  In "godmode" actions ->
  exists before, schedule canonical_order actions = (before ++ ["godmode"])%list.
Proof.
  intros H. apply mem_In in H. unfold schedule, canonical_order.
  cbn [filter]. rewrite H.
  destruct (mem "temp" actions), (mem "recycle" actions), (mem "tcp" actions),
    (mem "restart" actions), (mem "wifi" actions);
    eexists; match goal with
             | |- ?l = _ => change l with (removelast l ++ ["godmode"])%list
             end; reflexivity.
Qed.

Lemma schedule_restart_then_wifi actions :
  In "restart" actions -> In "wifi" actions ->
  exists before after,
    schedule canonical_order actions
    = (before ++ ["restart"; "wifi"] ++ after)%list.
Proof.
  intros Hr Hw. apply mem_In in Hr. apply mem_In in Hw.
  unfold schedule, canonical_order. cbn [filter]. rewrite Hr, Hw.
  exists (filter (fun a => mem a actions) ["temp"; "recycle"; "tcp"]),
         (filter (fun a => mem a actions) ["godmode"]).
  cbn [filter].
  destruct (mem "temp" actions), (mem "recycle" actions), (mem "tcp" actions),
    (mem "godmode" actions); reflexivity.
Qed.

(** C1, as the code has it.  For every selection the orchestrator walks
    the fixed order clean-temp, empty-recycle, optimize-tcp,
    restart-adapters, show-wifi, create-godmode and runs the block of each
    selected action (gate, then primitive, then report).  Only the set of
    selected actions counts: two selections with the same members give the
    same pass, so "2,1" runs clean-temp before empty-recycle.
    create-godmode, when selected, is the last action of the pass;
    restart-adapters is not: show-wifi, when selected, comes right after
    it. *)
Theorem C1_canonical_order (P : Primitives) (d y : bool) :
  (forall actions w,
     run_actions_with P d y actions w
     = run_in_order P d y canonical_order actions w)
  /\ (forall actions actions' w,
        (forall a, In a actions <-> In a actions') ->
        run_actions_with P d y actions w = run_actions_with P d y actions' w)
  /\ schedule canonical_order ["recycle"; "temp"] = ["temp"; "recycle"]
  /\ (forall actions,
        In "godmode" actions ->
        exists before,
          schedule canonical_order actions = (before ++ ["godmode"])%list)
  /\ (forall actions,
        In "restart" actions -> In "wifi" actions ->
        exists before after,
          schedule canonical_order actions
          = (before ++ ["restart"; "wifi"] ++ after)%list).
Proof.
  split; [|split; [|split; [|split]]].
  - intros actions w. apply run_actions_refines.
  - intros actions actions' w. apply run_actions_same_members.
  - reflexivity.
  - apply schedule_godmode_last.
  - apply schedule_restart_then_wifi.
Qed.

(** The selections "2,1" and "1,2,1" on the laboratory machine. *)
Lemma C1_canonical_order_witness :
  let w := Lab.boot Lab.machine ["y"; "n"] in
  run_actions_with module_primitives true false ["recycle"; "temp"] w
  = run_actions_with module_primitives true false ["temp"; "recycle"; "temp"] w
  /\ (exists before,
        schedule canonical_order all_actions = (before ++ ["godmode"])%list)
  /\ (exists before after,
        schedule canonical_order ["wifi"; "restart"]
        = (before ++ ["restart"; "wifi"] ++ after)%list).
Proof.
  intros w.
  destruct (C1_canonical_order module_primitives true false)
    as (_ & Hs & _ & Hg & Hr).
  split; [|split].
  - apply Hs. intros a. cbn. tauto.
  - apply Hg. cbn. tauto.
  - apply Hr; cbn; tauto.
Defined.

(** The selection "5,4" on the laboratory machine, every adapter chosen,
    as a dry run with every gate open: the adapters are restarted before
    the Wi-Fi profiles are listed. *)
Example restart_runs_before_wifi :
  let r := run_actions ["wifi"; "restart"] true true
             (Lab.boot (Lab.quiet Lab.machine) ["all"]) in
  result_of r = Ok tt
  /\ stdout_of (trace (world_of r))
     = [ "Network adapters:" ++ nl;
         " 1) Ethernet" ++ nl;
         " 2) Wi-Fi 2" ++ nl;
         "Enter adapter numbers to restart (comma-separated) or 'all': ";
         clear_line;
         "Restart 'Ethernet' -> Dry-run: would restart adapter 'Ethernet'." ++ nl;
         clear_line;
         "Restart 'Wi-Fi 2' -> Dry-run: would restart adapter 'Wi-Fi 2'." ++ nl;
         clear_line;
         "Wi‑Fi profiles & passwords ->" ++ nl;
         "Dry-run: would list saved Wi-Fi profiles and their passwords." ++ nl ].
Proof. split; vm_compute; reflexivity. Qed.

(** C1 as stated fails: the pass does not keep restart-adapters for the
    end.  With show-wifi and restart-adapters selected, the code restarts
    the adapters first; an order with restart-adapters and create-godmode
    last would list the Wi-Fi profiles first. *)
Lemma C1_restart_not_last :
  ~ (forall actions d y w,
       run_actions actions d y w
       = run_in_order module_primitives d y restart_last_order actions w).
Proof.
  intros H.
  specialize (H ["wifi"; "restart"] true true
                (Lab.boot (Lab.quiet Lab.machine) ["all"])).
  apply (f_equal (fun r => stdout_of (trace (world_of r)))) in H.
  vm_compute in H. discriminate H.
Qed.

(** ** Flag mode *)

Lemma any_event_all e : any_event e = true.
Proof. reflexivity. Qed.

Lemma run_actions_keeps_global actions d y w :
  launched_interactive (snd (run_actions actions d y w)) = launched_interactive w.
Proof.
  destruct (frame_run_actions any_event any_event_all actions d y w)
    as (_ & H & _). exact H.
Qed.

Lemma main_flag_mode args w :
  cli_flags args = true ->
  main args w
  = Some ((run_actions (flag_actions args) (dry_run args) (yes args) ;;
           ret 0%Z) w).
Proof. intros H. unfold main. rewrite H. reflexivity. Qed.

Lemma script_flag_mode args w w' :
  cli_flags args = true ->
  launched_interactive w = false ->
  run_actions (flag_actions args) (dry_run args) (yes args) w = (Ok tt, w') ->
  script args w = Some (0%Z, w').
Proof.
  intros Hf Hl Hr. unfold script. rewrite (main_flag_mode _ _ Hf).
  rewrite (bind_ok _ _ _ _ _ Hr). unfold ret.
  pose proof (run_actions_keeps_global
                (flag_actions args) (dry_run args) (yes args) w) as Hk.
  rewrite Hr, Hl in Hk. cbn [snd] in Hk.
  unfold try_except. rewrite Hk. reflexivity.
Qed.

Lemma flag_actions_not_empty args :
  cli_flags args = true -> flag_actions args <> [].
Proof.
  unfold cli_flags, flag_actions.
  destruct (all args); [discriminate|].
  destruct (clean_temp args), (empty_recycle args), (optimize_tcp args),
    (restart_adapters args), (show_wifi args); cbn; congruence.
Qed.

(** C3, as the code has it.  When one of the six action flags
    (--clean-temp, --empty-recycle, --optimize-tcp, --restart-adapters,
    --show-wifi, --all) is present, [main] is one pass of the orchestrator
    over the actions of the flags followed by [return 0]: no menu, no
    loop.  --all stands for the six actions in canonical order,
    create-godmode included.  The action set is never empty.  When the
    pass ends normally the process exits with status 0, whatever the
    primitives reported. *)
Theorem C3_flag_mode (args : Namespace) (w : World) :
  cli_flags args = true ->
  main args w
  = Some ((run_actions (flag_actions args) (dry_run args) (yes args) ;;
           ret 0%Z) w)
  /\ (all args = true -> flag_actions args = canonical_order)
  /\ flag_actions args <> []
  /\ (forall w',
        launched_interactive w = false ->
        run_actions (flag_actions args) (dry_run args) (yes args) w
        = (Ok tt, w') ->
        script args w = Some (0%Z, w')).
Proof.
  intros H. split; [|split; [|split]].
  - apply main_flag_mode, H.
  - intros Ha. unfold flag_actions. rewrite Ha. reflexivity.
  - apply flag_actions_not_empty, H.
  - intros w'. apply script_flag_mode, H.
Qed.

(** [--all --yes] on the machine where everything fails. *)
Lemma C3_flag_mode_witness :
  let args := mk_Namespace false false false false false true false true in
  let w := Lab.boot Lab.broken [] in
  let w' := world_of (run_actions all_actions false true w) in
  main args w
  = Some ((run_actions (flag_actions args) (dry_run args) (yes args) ;;
           ret 0%Z) w)
  /\ (all args = true -> flag_actions args = canonical_order)
  /\ flag_actions args <> []
  /\ script args w = Some (0%Z, w').
Proof.
  intros args w w'.
  destruct (C3_flag_mode args w eq_refl) as (H1 & H2 & H3 & H4).
  split; [exact H1 | split; [exact H2 | split; [exact H3|]]].
  apply H4; [reflexivity | vm_compute; reflexivity].
Defined.

(** [--restart-adapters] with nothing to read: the selection prompt of the
    sub-flow meets the end of the input, the fault leaves [main], and the
    exit status is 1. *)
Example flag_mode_fault_exit_status :
  let args := mk_Namespace false false false true false false false false in
  match main args (Lab.boot Lab.machine []),
        script args (Lab.boot Lab.machine []) with
  | Some (r, _), Some (status, _) => r = Raised EOF_when_reading /\ status = 1%Z
  | _, _ => False
  end.
Proof. vm_compute. split; reflexivity. Qed.

(** [--dry-run] alone, with nothing to read: the menu is shown and the
    selection prompt meets the end of the input. *)
Example dry_run_alone_shows_menu :
  match main only_dry_run (Lab.boot Lab.machine []) with
  | Some (r, w) =>
      r = Raised EOF_when_reading
      /\ stdout_of (trace w)
         = List.app (map (fun l => l ++ nl) menu_lines) ["Selection (e.g. 1,2): "]
      /\ launched_interactive w = true
  | None => False
  end.
Proof. vm_compute. repeat split. Qed.

(** C3 as stated fails: --dry-run is a recognized flag, and with it alone
    [main] is not a single pass of the orchestrator: it opens the menu. *)
Lemma C3_dry_run_alone_is_interactive :
  ~ (forall args w,
       any_flag args = true ->
       main args w
       = Some ((run_actions (flag_actions args) (dry_run args) (yes args) ;;
                ret 0%Z) w)).
Proof.
  intros H. specialize (H only_dry_run (Lab.boot Lab.machine []) eq_refl).
  apply (f_equal (fun r => match r with
                           | Some (Ok _, _) => true
                           | _ => false
                           end)) in H.
  vm_compute in H. discriminate H.
Qed.

(** ** The menu loop ends *)

Lemma for_each_print lines w :
  for_each_ lines print w = (Ok tt, log (printed lines) w).
Proof.
  revert w. induction lines as [|l rest IH]; intros w; cbn [for_each_].
  - unfold ret, log, printed. cbn. rewrite app_nil_r. destruct w. reflexivity.
  - unfold bind. rewrite print_run, IH, log_log. reflexivity.
Qed.

(** A menu that returns has taken the first line of the input. *)
Lemma interactive_menu_reads w actions w1 :
  interactive_menu w = (Ok actions, w1) ->
  exists line, stdin w = line :: stdin w1.
Proof.
  unfold interactive_menu. unfold bind at 1. rewrite for_each_print.
  unfold bind, input. cbn [stdin log].
  destruct (stdin w) as [|line rest]; [discriminate|].
  intros H. exists line. f_equal.
  destruct (is_empty (strip line)); [injection H as _ <-; reflexivity|].
  destruct (mem "6" (menu_tokens (strip line))); injection H as _ <-;
    reflexivity.
Qed.

Lemma frame_menu_rest args actions :
  frame any_event
    (match actions with
     | [] =>
         line <- input "No actions selected. Press Enter to exit, or type 'r' to return to the menu: " ;;
         ret (lower (strip line) =? "r")
     | _ =>
         run_actions actions (dry_run args) (yes args) ;;
         line <- input "Press Enter to return to the menu, or type 'exit' to quit: " ;;
         ret (negb (lower (strip line) =? "exit"))
     end).
Proof.
  destruct actions as [|a rest]; frame_auto.
  apply frame_run_actions, any_event_all.
Qed.

Lemma skipn_length_le {A} k (l : list A) :
  List.length (skipn k l) <= List.length l.
Proof. rewrite length_skipn. lia. Qed.

(** Every turn that does not raise shortens the input. *)
Lemma menu_turn_consumes args w again w' :
  menu_turn args w = (Ok again, w') ->
  List.length (stdin w') < List.length (stdin w).
Proof.
  unfold menu_turn, bind.
  destruct (interactive_menu w) as [[actions | e] w1] eqn:Em; [|discriminate].
  destruct (interactive_menu_reads _ _ _ Em) as (line & Hs).
  intros H.
  destruct (frame_menu_rest args actions w1) as (_ & _ & _ & (k & Hk)).
  unfold bind in Hk. rewrite H in Hk. cbn [snd] in Hk.
  rewrite Hk, Hs. cbn [List.length].
  pose proof (skipn_length_le k (stdin w1)). lia.
Qed.

Lemma menu_loop_total fuel : forall args w,
  List.length (stdin w) < fuel -> menu_loop fuel args w <> None.
Proof.
  induction fuel as [|k IH]; intros args w Hlt; [lia|].
  cbn [menu_loop].
  destruct (menu_turn args w) as [[[|] | e] w'] eqn:E; try discriminate.
  apply IH. apply menu_turn_consumes in E. lia.
Qed.

(** [main] always ends: with a result or with a fault, in both modes. *)
Lemma main_total args w : main args w <> None.
Proof.
  unfold main. destruct (cli_flags args); [discriminate|].
  cbn [set_launched_interactive].
  pose proof (menu_loop_total
                (S (List.length (stdin w))) args
                (mk_World (os w) (trace w) (stdin w) true)) as H.
  cbn [stdin] in *.
  destruct (menu_loop (S (List.length (stdin w))) args
              (mk_World (os w) (trace w) (stdin w) true))
    as [[[u | e] w2] |]; try discriminate.
  exfalso. apply H; [lia | reflexivity].
Qed.

(** * Further properties of the code *)

(** ** Declined and faulting actions *)

(** X1. A simple action whose confirmation is declined prints its
    "Skipped ..." line and ends normally; its primitive is not reached,
    whatever the primitives are (the resulting world does not depend on
    them).  The same holds for an adapter of the restart sub-flow. *)
Theorem X1_declined_action_skipped (P : Primitives) (d y : bool) (a : string)
  (w w0 : World) :
  In a simple_actions ->
  ensure_confirm (gate_prompt a) y w = (Ok false, w0) ->
  action_block P d y a w = (Ok tt, log (printed [skip_line a]) w0)
  /\ forall name w w0,
       ensure_confirm ("Restart adapter '" ++ name
                       ++ "'? This will briefly disconnect network.") y w
       = (Ok false, w0) ->
       restart_one P d y name w
       = (Ok tt, log (printed ["Skipped restarting '" ++ name ++ "'."]) w0).
Proof.
  intros Ha Hc. split.
  - cbn in Ha. destruct Ha as [<- | [<- | [<- | [<- | [<- | []]]]]].
    + change (action_block P d y "temp") with (temp_block P d y).
      unfold temp_block. rewrite (bind_ok _ _ _ _ _ Hc). reflexivity.
    + change (action_block P d y "recycle") with (recycle_block P d y).
      unfold recycle_block. rewrite (bind_ok _ _ _ _ _ Hc). reflexivity.
    + change (action_block P d y "tcp") with (tcp_block P d y).
      unfold tcp_block. rewrite (bind_ok _ _ _ _ _ Hc). reflexivity.
    + change (action_block P d y "wifi") with (wifi_block P d y).
      unfold wifi_block. rewrite (bind_ok _ _ _ _ _ Hc). reflexivity.
    + change (action_block P d y "godmode") with (godmode_block P d y).
      unfold godmode_block. rewrite (bind_ok _ _ _ _ _ Hc). reflexivity.
  - intros name w' w0' Hc'. unfold restart_one.
    rewrite (bind_ok _ _ _ _ _ Hc'). reflexivity.
Qed.

(** The answer "n" to the clean-temp prompt on the laboratory machine. *)
Lemma X1_declined_action_skipped_witness :
  let w := Lab.boot Lab.machine ["n"] in
  let w0 := world_of (ensure_confirm (gate_prompt "temp") false w) in
  action_block module_primitives false false "temp" w
  = (Ok tt, log (printed [skip_line "temp"]) w0)
  /\ forall name w w0,
       ensure_confirm ("Restart adapter '" ++ name
                       ++ "'? This will briefly disconnect network.") false w
       = (Ok false, w0) ->
       restart_one module_primitives false false name w
       = (Ok tt, log (printed ["Skipped restarting '" ++ name ++ "'."]) w0).
Proof.
  intros w w0.
  apply (X1_declined_action_skipped module_primitives false false "temp" w w0).
  - left. reflexivity.
  - vm_compute. reflexivity.
Defined.

Lemma spun_fault (c : M (bool * string)) prefix (k : string -> M unit) w e w1 :
  c (log [EvThreadStart] w) = (Raised e, w1) ->
  exists evs,
    forallb runner_event evs = true
    /\ (r <- run_with_spinner c prefix ;;
        '(ok, msg) <- unpack_pair r ;; k msg) w
       = (Raised (if is_Exception e then e else NoneType_unpack), log evs w1).
Proof.
  intros Hc.
  destruct (run_with_spinner_result c prefix w w1 _ Hc) as (painted & Hp & E).
  exists ([EvEventSet] ++ painted ++ [EvStdout clear_line; EvThreadJoin])%list.
  split.
  - cbn [List.app forallb runner_event andb].
    rewrite forallb_app, (indicator_is_runner _ Hp). reflexivity.
  - destruct (is_Exception e).
    + rewrite (bind_raised _ _ _ _ _ E). reflexivity.
    + rewrite (bind_ok _ _ _ _ _ E). reflexivity.
Qed.

Lemma for_each__raises {A} (before after : list A) (x : A) (body : A -> M unit)
  w w1 e w2 :
  for_each_ before body w = (Ok tt, w1) ->
  body x w1 = (Raised e, w2) ->
  for_each_ (before ++ x :: after) body w = (Raised e, w2).
Proof.
  revert w. induction before as [|b rest IH]; intros w Hb Hx.
  - cbn in Hb. injection Hb as <-. cbn [List.app for_each_].
    rewrite (bind_raised _ _ _ _ _ Hx). reflexivity.
  - cbn [List.app for_each_] in *. unfold bind in *.
    destruct (body b w) as [[u | e'] w'] eqn:E; [|discriminate Hb].
    apply IH; assumption.
Qed.

(** X2. A fault of a primitive is fatal for the pass.  A confirmed simple
    action whose primitive raises [e] raises in turn and prints no report:
    [e] itself when it is an [Exception] or when the primitive is called
    directly (create-godmode); behind the runner a fault that is no
    [Exception] is replaced by the [TypeError] of unpacking [None].  The
    pass then ends with that fault: the actions scheduled after it are
    not run. *)
Theorem X2_fault_ends_pass (P : Primitives) (d y : bool) (a : string)
  (w w0 w1 : World) (e : exn) :
  In a simple_actions ->
  ensure_confirm (gate_prompt a) y w = (Ok true, w0) ->
  primitive_for P a d (primitive_start a w0) = (Raised e, w1) ->
  exists evs,
    forallb runner_event evs = true
    /\ action_block P d y a w = (Raised (block_fault a e), log evs w1)
    /\ forall actions before after w',
         schedule canonical_order actions = (before ++ a :: after)%list ->
         for_each_ before (action_block P d y) w' = (Ok tt, w) ->
         run_actions_with P d y actions w'
         = (Raised (block_fault a e), log evs w1).
Proof.
  intros Ha Hc Hp.
  assert (Hb : exists evs,
             forallb runner_event evs = true
             /\ action_block P d y a w = (Raised (block_fault a e), log evs w1)).
  { cbn in Ha. destruct Ha as [<- | [<- | [<- | [<- | [<- | []]]]]].
    - change (action_block P d y "temp") with (temp_block P d y).
      change (primitive_for P "temp" d (primitive_start "temp" w0))
        with (prim_clean_temp_dir P d (log [EvThreadStart] w0)) in Hp.
      unfold temp_block. rewrite (bind_ok _ _ _ _ _ Hc). cbn [negb].
      destruct (spun_fault _ "Cleaning %TEMP%..."
                  (fun msg => print ("Clean %TEMP% -> " ++ msg)) _ _ _ Hp)
        as (evs & He & E).
      exists evs. split; [exact He|]. rewrite E. unfold block_fault.
      destruct (is_Exception e); reflexivity.
    - change (action_block P d y "recycle") with (recycle_block P d y).
      change (primitive_for P "recycle" d (primitive_start "recycle" w0))
        with (prim_empty_recycle_bin P d (log [EvThreadStart] w0)) in Hp.
      unfold recycle_block. rewrite (bind_ok _ _ _ _ _ Hc). cbn [negb].
      destruct (spun_fault _ "Emptying Recycle Bin..."
                  (fun msg => print ("Empty Recycle Bin -> " ++ msg)) _ _ _ Hp)
        as (evs & He & E).
      exists evs. split; [exact He|]. rewrite E. unfold block_fault.
      destruct (is_Exception e); reflexivity.
    - change (action_block P d y "tcp") with (tcp_block P d y).
      change (primitive_for P "tcp" d (primitive_start "tcp" w0))
        with (prim_apply_tcp_optimizations P d (log [EvThreadStart] w0)) in Hp.
      unfold tcp_block. rewrite (bind_ok _ _ _ _ _ Hc). cbn [negb].
      destruct (spun_fault _ "Applying TCP optimizations..."
                  (fun msg => print "TCP optimizations ->" ;; print msg)
                  _ _ _ Hp)
        as (evs & He & E).
      exists evs. split; [exact He|]. rewrite E. unfold block_fault.
      destruct (is_Exception e); reflexivity.
    - change (action_block P d y "wifi") with (wifi_block P d y).
      change (primitive_for P "wifi" d (primitive_start "wifi" w0))
        with (prim_show_wifi_passwords P d (log [EvThreadStart] w0)) in Hp.
      unfold wifi_block. rewrite (bind_ok _ _ _ _ _ Hc). cbn [negb].
      destruct (spun_fault _ "Gathering Wi‑Fi profiles..."
                  (fun msg => print "Wi‑Fi profiles & passwords ->" ;; print msg)
                  _ _ _ Hp)
        as (evs & He & E).
      exists evs. split; [exact He|]. rewrite E. unfold block_fault.
      destruct (is_Exception e); reflexivity.
    - change (action_block P d y "godmode") with (godmode_block P d y).
      change (primitive_for P "godmode" d (primitive_start "godmode" w0))
        with (prim_create_god_mode P d w0) in Hp.
      unfold godmode_block. rewrite (bind_ok _ _ _ _ _ Hc). cbn [negb].
      rewrite (bind_raised _ _ _ _ _ Hp). exists [].
      split; [reflexivity|]. unfold log. cbn. rewrite app_nil_r.
      destruct w1. reflexivity. }
  destruct Hb as (evs & He & Hb). exists evs.
  split; [exact He | split; [exact Hb|]].
  intros actions before after w' Hs Hpre.
  rewrite run_actions_refines. unfold run_in_order.
  destruct actions as [|x rest].
  - cbn in Hs. destruct before; discriminate Hs.
  - rewrite Hs. eapply for_each__raises; eassumption.
Qed.

(** Without [netsh], with recycle, tcp and wifi selected and every gate
    open: the recycle bin is emptied, the TCP action raises
    [FileNotFoundError], and the pass ends there. *)
Lemma X2_fault_ends_pass_witness :
  let P := module_primitives in
  let w' := Lab.boot Lab.no_netsh [] in
  let w := world_of (action_block P false true "recycle" w') in
  let w1 := world_of (apply_tcp_optimizations false (log [EvThreadStart] w)) in
  let e := exn_of_error Lab.not_found in
  exists evs,
    forallb runner_event evs = true
    /\ action_block P false true "tcp" w = (Raised (block_fault "tcp" e), log evs w1)
    /\ run_actions_with P false true ["tcp"; "wifi"; "recycle"] w'
       = (Raised (block_fault "tcp" e), log evs w1).
Proof.
  intros P w' w w1 e.
  destruct (X2_fault_ends_pass P false true "tcp" w w w1 e)
    as (evs & He & Hb & Hp).
  - right. right. left. reflexivity.
  - reflexivity.
  - vm_compute. reflexivity.
  - exists evs. split; [exact He | split; [exact Hb|]].
    apply (Hp ["tcp"; "wifi"; "recycle"] ["recycle"] ["wifi"] w').
    + reflexivity.
    + vm_compute. reflexivity.
Defined.

(** ** The restart sub-flow *)

Lemma for_each_print_map {A} (f : A -> string) (l : list A) w :
  for_each_ l (fun x => print (f x)) w = (Ok tt, log (printed (map f l)) w).
Proof.
  revert w. induction l as [|x rest IH]; intros w; cbn [for_each_ map].
  - unfold ret, log, printed. cbn. rewrite app_nil_r. destruct w. reflexivity.
  - unfold bind. rewrite print_run, IH, log_log. reflexivity.
Qed.

Lemma listing_printed adapters w :
  (print "Network adapters:" ;;
   for_each_ (enumerate 1 adapters)
     (fun '(i, a) => print (" " ++ str_of_nat i ++ ") " ++ a))) w
  = (Ok tt, log (printed ("Network adapters:" :: numbered adapters)) w).
Proof.
  unfold bind. rewrite print_run.
  rewrite (for_each__ext _ _
             (fun x => print (let '(i, a) := x in
                              " " ++ str_of_nat i ++ ") " ++ a)))
    by (intros [i a] w'; reflexivity).
  rewrite for_each_print_map, log_log. reflexivity.
Qed.

(** X3. Once adapters are listed, the restart sub-flow always asks for a
    selection, also when every confirmation is assumed: at the end of the
    input stream it raises [EOFError] after printing the listing, and on
    a blank line it prints "No adapters selected; skipping restart." and
    ends normally without any restart. *)
Theorem X3_restart_reads_selection (P : Primitives) (d y : bool)
  (w w1 : World) (adapters : list string) :
  prim_list_network_adapters P w = (Ok adapters, w1) ->
  adapters <> [] ->
  (stdin w1 = [] ->
   restart_block P d y w
   = (Raised EOF_when_reading,
      log (List.app (printed ("Network adapters:" :: numbered adapters))
             [EvStdout selection_prompt; EvStdinEOF]) w1))
  /\ (forall line rest,
        stdin w1 = line :: rest ->
        strip line = EmptyString ->
        restart_block P d y w
        = (Ok tt,
           mk_World (os w1)
             (List.app (trace w1)
                (List.app (printed ("Network adapters:" :: numbered adapters))
                   (List.app [EvStdout selection_prompt; EvStdin line]
                      (printed ["No adapters selected; skipping restart."]))))
             rest (launched_interactive w1))).
Proof.
  intros Hl Hne. unfold restart_block. rewrite (bind_ok _ _ _ _ _ Hl).
  destruct adapters as [|a0 rest0]; [congruence|].
  split.
  - intros Hs.
    rewrite <- bind_assoc. rewrite (bind_ok _ _ _ _ _ (listing_printed _ _)).
    unfold bind, input. cbn [stdin log]. rewrite Hs.
    rewrite log_log. reflexivity.
  - intros line rest Hs Hb.
    rewrite <- bind_assoc. rewrite (bind_ok _ _ _ _ _ (listing_printed _ _)).
    unfold bind, input. cbn [stdin log]. rewrite Hs, Hb. cbn [is_empty].
    rewrite print_run. unfold log. cbn [os trace stdin launched_interactive].
    rewrite <- !app_assoc. reflexivity.
Qed.

(** [--restart-adapters --yes] on the laboratory machine with nothing to
    read, and with a blank answer. *)
Lemma X3_restart_reads_selection_witness :
  let P := module_primitives in
  let adapters := ["Ethernet"; "Wi-Fi 2"] in
  let w := Lab.boot Lab.machine [] in
  let w1 := world_of (list_network_adapters w) in
  restart_block P false true w
  = (Raised EOF_when_reading,
     log (List.app (printed ("Network adapters:" :: numbered adapters))
            [EvStdout selection_prompt; EvStdinEOF]) w1).
Proof.
  intros P adapters w w1.
  apply (X3_restart_reads_selection P false true w w1 adapters).
  - vm_compute. reflexivity.
  - discriminate.
  - reflexivity.
Defined.

Lemma token_targets_listed adapters tok t :
  In t (token_targets adapters tok) -> In t adapters.
Proof.
  unfold token_targets. destruct (is_empty (strip tok)); [intros []|].
  destruct (py_int (strip tok)) as [n|].
  - destruct ((0 <=? n - 1)%Z && (n - 1 <? Z.of_nat (List.length adapters))%Z)
      eqn:E; [|intros []].
    apply andb_true_iff in E. destruct E as [E1 E2].
    apply Z.leb_le in E1. apply Z.ltb_lt in E2.
    intros [<- | []]. apply nth_In. lia.
  - destruct (mem (strip tok) adapters) eqn:E; [|intros []].
    intros [<- | []]. apply mem_In, E.
Qed.

Lemma token_targets_short adapters tok :
  List.length (token_targets adapters tok) <= 1.
Proof.
  unfold token_targets. destruct (is_empty (strip tok)); [cbn; lia|].
  destruct (py_int (strip tok)) as [n|].
  - destruct ((0 <=? n - 1)%Z && (n - 1 <? Z.of_nat (List.length adapters))%Z);
      cbn; lia.
  - destruct (mem (strip tok) adapters); cbn; lia.
Qed.

Lemma flat_map_short {A B} (f : A -> list B) l :
  (forall x, List.length (f x) <= 1) ->
  List.length (flat_map f l) <= List.length l.
Proof.
  intros H. induction l as [|x l IH]; [reflexivity|].
  cbn. rewrite length_app. specialize (H x). lia.
Qed.

(** X4. Whatever is typed as a selection, every adapter the sub-flow goes
    on to restart is one of the listed adapters; and, "all" apart, there
    are at most as many targets as comma-separated tokens. *)
Theorem X4_targets_are_listed (adapters : list string) (sel : string) :
  (forall t, In t (select_targets adapters sel) -> In t adapters)
  /\ ((lower sel =? "all") = false ->
      List.length (select_targets adapters sel)
      <= List.length (split_on "," sel)).
Proof.
  unfold select_targets. destruct (lower sel =? "all").
  - split; [auto | discriminate].
  - rewrite collect_targets_flat. cbn [List.app]. split.
    + intros t Ht. apply in_flat_map in Ht. destruct Ht as (tok & _ & Ht).
      eapply token_targets_listed, Ht.
    + intros _. apply flat_map_short, token_targets_short.
Qed.

(** A selection the listing could print, with blanks around the tokens. *)
Lemma X4_targets_are_listed_witness :
  (forall t,
     In t (select_targets ["Ethernet"; "Wi-Fi 2"] "2, Ethernet ,9,Loopback") ->
     In t ["Ethernet"; "Wi-Fi 2"])
  /\ List.length (select_targets ["Ethernet"; "Wi-Fi 2"] "2, Ethernet ,9,Loopback")
     <= List.length (split_on "," "2, Ethernet ,9,Loopback").
Proof.
  destruct (X4_targets_are_listed ["Ethernet"; "Wi-Fi 2"]
              "2, Ethernet ,9,Loopback") as [H1 H2].
  split; [exact H1 | apply H2; reflexivity].
Defined.

(** *** Reading back a printed number *)




















(** ** The primitives in a real run *)

(** X7. A real run of [empty_recycle_bin] never raises and calls the shell
    API exactly once, with the flags for no confirmation, no progress
    window and no sound (7).  It reports success exactly when the call
    returned HRESULT 0; any other HRESULT and any fault of the call are
    turned into a failure message. *)
Theorem X7_empty_recycle_bin_real (w : World) :
  exists msg,
    empty_recycle_bin false w
    = (Ok (match SHEmptyRecycleBinW (os w) (trace w) 7 with
           | inr 0%Z => true
           | _ => false
           end, msg),
       log [EvSHEmptyRecycleBinW 7] w)
    /\ match SHEmptyRecycleBinW (os w) (trace w) 7 with
       | inr hr =>
           if (hr =? 0)%Z then msg = "Recycle Bin emptied."
           else msg = "SHEmptyRecycleBinW returned HRESULT 0x" ++ format_08X hr
       | inl e => msg = "Exception calling SHEmptyRecycleBinW: " ++ err_text e
       end.
Proof.
  unfold empty_recycle_bin, try_except, shell_empty_recycle_bin, bind, ask,
    lift_error, ret, raise.
  change (Z.lor (Z.lor SHERB_NOCONFIRMATION SHERB_NOPROGRESSUI) SHERB_NOSOUND)
    with 7%Z.
  destruct (SHEmptyRecycleBinW (os w) (trace w) 7) as [e | hr].
  - eexists. split; reflexivity.
  - cbn. destruct hr; eexists; split; reflexivity.
Qed.

Lemma restart_adapter_run name w :
  restart_adapter name false w
  = match subprocess_run (os w) (trace w) (disable_cmd name) with
    | inl err =>
        (if is_class CalledProcessError (exn_of_error err)
         then Ok (false, "Command failed for '" ++ name ++ "': "
                         ++ stderr_or_text (exn_of_error err))
         else Raised (exn_of_error err),
         log [EvSubprocessRun (disable_cmd name)] w)
    | inr _ =>
        match subprocess_run (os w)
                (List.app (trace w) [EvSubprocessRun (disable_cmd name)])
                (enable_cmd name) with
        | inl err =>
            (if is_class CalledProcessError (exn_of_error err)
             then Ok (false, "Command failed for '" ++ name ++ "': "
                             ++ stderr_or_text (exn_of_error err))
             else Raised (exn_of_error err),
             log [EvSubprocessRun (disable_cmd name);
                  EvSubprocessRun (enable_cmd name)] w)
        | inr _ =>
            (Ok (true, "Adapter '" ++ name ++ "' restarted."),
             log [EvSubprocessRun (disable_cmd name);
                  EvSubprocessRun (enable_cmd name)] w)
        end
    end.
Proof.
  unfold restart_adapter, try_except, run_process, bind, ask, lift_error, ret,
    raise.
  fold (disable_cmd name). fold (enable_cmd name).
  destruct (subprocess_run (os w) (trace w) (disable_cmd name)) as [err | o1].
  - cbn -[is_class].
    destruct (is_class CalledProcessError (exn_of_error err)); reflexivity.
  - cbn [log os trace].
    destruct (subprocess_run (os w)
                (List.app (trace w) [EvSubprocessRun (disable_cmd name)])
                (enable_cmd name)) as [err | o2].
    + cbn -[is_class log]. rewrite log_log.
      destruct (is_class CalledProcessError (exn_of_error err)); reflexivity.
    + cbn -[log]. rewrite log_log. reflexivity.
Qed.

(** X8. A real run of [restart_adapter] disables, then enables.  It
    reports success only when both commands succeeded.  When disabling
    fails the enabling command is never launched.  When enabling fails
    after disabling succeeded, the failure is reported and the adapter is
    left disabled (no further command is launched).  A
    [CalledProcessError] never leaves the function. *)
Theorem X8_restart_adapter_real (name : string) (w : World) :
  (forall msg w',
     restart_adapter name false w = (Ok (true, msg), w') ->
     (exists o1, subprocess_run (os w) (trace w) (disable_cmd name) = inr o1)
     /\ (exists o2,
           subprocess_run (os w)
             (List.app (trace w) [EvSubprocessRun (disable_cmd name)])
             (enable_cmd name) = inr o2)
     /\ w' = log [EvSubprocessRun (disable_cmd name);
                  EvSubprocessRun (enable_cmd name)] w)
  /\ (forall err,
        subprocess_run (os w) (trace w) (disable_cmd name) = inl err ->
        world_of (restart_adapter name false w)
        = log [EvSubprocessRun (disable_cmd name)] w)
  /\ (forall o1 err,
        subprocess_run (os w) (trace w) (disable_cmd name) = inr o1 ->
        subprocess_run (os w)
          (List.app (trace w) [EvSubprocessRun (disable_cmd name)])
          (enable_cmd name) = inl err ->
        err_class err = CalledProcessError ->
        restart_adapter name false w
        = (Ok (false, "Command failed for '" ++ name ++ "': "
                      ++ stderr_or_text (exn_of_error err)),
           log [EvSubprocessRun (disable_cmd name);
                EvSubprocessRun (enable_cmd name)] w))
  /\ (forall e w',
        restart_adapter name false w = (Raised e, w') ->
        is_class CalledProcessError e = false).
Proof.
  rewrite restart_adapter_run.
  destruct (subprocess_run (os w) (trace w) (disable_cmd name)) as [err | o1].
  - split; [|split; [|split]].
    + intros msg w' H.
      destruct (is_class CalledProcessError (exn_of_error err)); discriminate H.
    + intros err' _. reflexivity.
    + intros o1 err' H. discriminate H.
    + intros e w' H.
      destruct (is_class CalledProcessError (exn_of_error err)) eqn:E;
        [discriminate H|]. injection H as <- _. exact E.
  - destruct (subprocess_run (os w)
                (List.app (trace w) [EvSubprocessRun (disable_cmd name)])
                (enable_cmd name)) as [err | o2].
    + split; [|split; [|split]].
      * intros msg w' H.
        destruct (is_class CalledProcessError (exn_of_error err));
          discriminate H.
      * intros err' H. discriminate H.
      * intros o1' err' _ H Hc. injection H as <-.
        unfold is_class, exn_of_error. cbn [exn_class_of]. rewrite Hc.
        reflexivity.
      * intros e w' H.
        destruct (is_class CalledProcessError (exn_of_error err)) eqn:E;
          [discriminate H|]. injection H as <- _. exact E.
    + split; [|split; [|split]].
      * intros msg w' H. injection H as _ <-. eauto.
      * intros err' H. discriminate H.
      * intros o1' err' _ H. discriminate H.
      * intros e w' H. discriminate H.
Qed.

(** Where [netsh] refuses everything, and where it refuses to enable. *)
Lemma X8_restart_adapter_real_witness :
  world_of (restart_adapter "Ethernet" false (Lab.boot Lab.broken []))
  = log [EvSubprocessRun (disable_cmd "Ethernet")] (Lab.boot Lab.broken [])
  /\ restart_adapter "Ethernet" false (Lab.boot Lab.stuck [])
     = (Ok (false, "Command failed for 'Ethernet': "
                   ++ stderr_or_text (exn_of_error Lab.netsh_failed)),
        log [EvSubprocessRun (disable_cmd "Ethernet");
             EvSubprocessRun (enable_cmd "Ethernet")] (Lab.boot Lab.stuck [])).
Proof.
  split.
  - destruct (X8_restart_adapter_real "Ethernet" (Lab.boot Lab.broken []))
      as (_ & H & _).
    apply (H Lab.netsh_failed). reflexivity.
  - destruct (X8_restart_adapter_real "Ethernet" (Lab.boot Lab.stuck []))
      as (_ & _ & H & _).
    apply (H "Ok." Lab.netsh_failed); reflexivity.
Defined.

Lemma create_god_mode_run w :
  create_god_mode false w
  = if os_path_exists (os w) (trace w) (god_mode_desktop w)
    then
      if os_path_exists (os w)
           (List.app (trace w) [EvPathExists (god_mode_desktop w)])
           (god_mode_path w)
      then (Ok (true, "God Mode folder already exists: " ++ god_mode_path w),
            log [EvPathExists (god_mode_desktop w);
                 EvPathExists (god_mode_path w)] w)
      else
        match os_mkdir (os w)
                (List.app (trace w)
                   [EvPathExists (god_mode_desktop w);
                    EvPathExists (god_mode_path w)])
                (god_mode_path w) with
        | None =>
            (Ok (true, "Created God Mode folder: " ++ god_mode_path w),
             log [EvPathExists (god_mode_desktop w);
                  EvPathExists (god_mode_path w);
                  EvMkdir (god_mode_path w)] w)
        | Some err =>
            (Ok (false, "Failed to create God Mode folder: " ++ err_text err),
             log [EvPathExists (god_mode_desktop w);
                  EvPathExists (god_mode_path w);
                  EvMkdir (god_mode_path w)] w)
        end
    else (Ok (false, "Desktop path not found: " ++ god_mode_desktop w),
          log [EvPathExists (god_mode_desktop w)] w).
Proof.
  unfold create_god_mode, expanduser, path_join.
  unfold bind at 1. unfold peek at 1. unfold bind at 1. unfold peek at 1.
  unfold bind at 1. unfold peek at 1.
  fold (god_mode_desktop w). fold (god_mode_path w).
  unfold try_except, path_exists, mkdir, bind, ask, lift_status, ret, raise.
  cbn -[god_mode_desktop god_mode_path String.append].
  destruct (os_path_exists (os w) (trace w) (god_mode_desktop w));
    [|reflexivity].
  cbn -[god_mode_desktop god_mode_path String.append].
  destruct (os_path_exists (os w)
              (List.app (trace w) [EvPathExists (god_mode_desktop w)])
              (god_mode_path w)).
  - cbn -[god_mode_desktop god_mode_path String.append].
    unfold log. cbn [os trace stdin launched_interactive].
    rewrite <- app_assoc. reflexivity.
  - cbn -[god_mode_desktop god_mode_path String.append].
    rewrite <- app_assoc. cbn [List.app].
    destruct (os_mkdir (os w)
                (List.app (trace w)
                   [EvPathExists (god_mode_desktop w);
                    EvPathExists (god_mode_path w)])
                (god_mode_path w)) as [err|];
      cbn -[god_mode_desktop god_mode_path String.append];
      unfold log; cbn [os trace stdin launched_interactive];
      rewrite <- ?app_assoc; reflexivity.
Qed.

(** X9. A real run of [create_god_mode] never raises.  The only change it
    can make is one [mkdir] of the God Mode folder, and it makes it only
    when the desktop exists and the folder does not: run on a desktop
    that already has the folder it changes nothing and reports success.
    A missing desktop is reported as a failure. *)
Theorem X9_create_god_mode_real (w : World) :
  exists ok msg evs,
    create_god_mode false w = (Ok (ok, msg), log evs w)
    /\ (effects_of evs = [] \/ effects_of evs = [EvMkdir (god_mode_path w)])
    /\ (os_path_exists (os w) (trace w) (god_mode_desktop w) = false ->
        ok = false /\ effects_of evs = [])
    /\ (os_path_exists (os w) (trace w) (god_mode_desktop w) = true ->
        os_path_exists (os w)
          (List.app (trace w) [EvPathExists (god_mode_desktop w)])
          (god_mode_path w) = true ->
        ok = true /\ effects_of evs = []).
Proof.
  rewrite create_god_mode_run.
  destruct (os_path_exists (os w) (trace w) (god_mode_desktop w)).
  - destruct (os_path_exists (os w)
                (List.app (trace w) [EvPathExists (god_mode_desktop w)])
                (god_mode_path w)).
    + do 3 eexists. split; [reflexivity|]. cbn. auto.
    + destruct (os_mkdir (os w)
                  (List.app (trace w)
                     [EvPathExists (god_mode_desktop w);
                      EvPathExists (god_mode_path w)])
                  (god_mode_path w)) as [err|];
        do 3 eexists; (split; [reflexivity|]); cbn;
        (split; [auto | split; discriminate]).
  - do 3 eexists. split; [reflexivity|]. cbn.
    split; [auto | split; [auto | discriminate]].
Qed.

(** The laboratory machine has the desktop and, as every path exists
    there, the folder too. *)
Lemma X9_create_god_mode_real_witness :
  exists ok msg evs,
    create_god_mode false (Lab.boot Lab.machine [])
    = (Ok (ok, msg), log evs (Lab.boot Lab.machine []))
    /\ ok = true /\ effects_of evs = [].
Proof.
  destruct (X9_create_god_mode_real (Lab.boot Lab.machine []))
    as (ok & msg & evs & H1 & _ & _ & H4).
  exists ok, msg, evs. split; [exact H1|]. apply H4; reflexivity.
Defined.

(** *** What a real cleaning touches *)






(** ** Wi-Fi profiles *)

Lemma get_wifi_password_run profile w :
  get_wifi_password profile w
  = (match subprocess_run (os w) (trace w) (password_cmd profile) with
     | inr out =>
         match search_labelled "Key Content" out with
         | Some g => Ok (true, strip g)
         | None =>
             Ok (false, "No password stored (open network or not available).")
         end
     | inl err =>
         if is_class CalledProcessError (exn_of_error err)
         then Ok (false, "Failed to query profile: " ++ err_text err)
         else Raised (exn_of_error err)
     end, log [EvSubprocessRun (password_cmd profile)] w).
Proof.
  unfold get_wifi_password, try_except, run_process, bind, ask, lift_error,
    ret, raise.
  fold (password_cmd profile).
  destruct (subprocess_run (os w) (trace w) (password_cmd profile)) as [err|out].
  - cbn -[is_class].
    destruct (is_class CalledProcessError (exn_of_error err)); reflexivity.
  - cbn -[search_labelled]. destruct (search_labelled "Key Content" out);
      reflexivity.
Qed.

Lemma wifi_loop_report profiles : forall out_lines w lines w',
  for_each profiles out_lines
    (fun p out_lines =>
       '(ok, pw) <- get_wifi_password p ;;
       ret (List.app out_lines [p ++ ": " ++ pw])) w = (Ok lines, w') ->
  exists pws,
    List.length pws = List.length profiles
    /\ lines = List.app out_lines (map profile_report (combine profiles pws)).
Proof.
  induction profiles as [|p rest IH]; intros out_lines w lines w' H.
  - cbn in H. injection H as <- _. exists []. cbn. rewrite app_nil_r. auto.
  - cbn [for_each] in H. unfold bind at 1 in H. unfold bind at 1 in H.
    destruct (get_wifi_password p w) as [[[ok pw] | e] w1]; [|discriminate H].
    cbn [ret] in H. unfold ret at 1 in H.
    destruct (IH _ _ _ _ H) as (pws & Hl & ->).
    exists (pw :: pws). split; [cbn; lia|].
    cbn [combine map profile_report]. rewrite <- app_assoc. reflexivity.
Qed.

(** X11. A real run of [show_wifi_passwords] that returns reports failure
    exactly when no profile is listed.  With profiles listed it reports
    success with one line "profile: text" per profile, in the order of the
    listing, whatever the single password queries answered: a profile
    without a stored password, or whose query [netsh] refused, gets its
    line with the explanation in place of the password. *)
Theorem X11_show_wifi_passwords_flag (w w1 w' : World) (profiles : list string)
  (ok : bool) (msg : string) :
  list_wifi_profiles w = (Ok profiles, w1) ->
  show_wifi_passwords false w = (Ok (ok, msg), w') ->
  match profiles with
  | [] =>
      ok = false
      /\ msg = "No Wi-Fi profiles found or failed to query profiles."
      /\ w' = w1
  | _ =>
      ok = true
      /\ exists pws,
           List.length pws = List.length profiles
           /\ msg = join nl (map profile_report (combine profiles pws))
  end.
Proof.
  intros Hl H. unfold show_wifi_passwords in H.
  rewrite (bind_ok _ _ _ _ _ Hl) in H.
  destruct profiles as [|p rest].
  - injection H as <- <- <-. auto.
  - unfold bind at 1 in H.
    match type of H with
    | context [for_each ?l ?a ?b ?w0] =>
        destruct (for_each l a b w0) as [[lines | e] w2] eqn:E;
          [|discriminate H]
    end.
    injection H as <- <- _. split; [reflexivity|].
    destruct (wifi_loop_report _ _ _ _ _ E) as (pws & Hn & ->).
    exists pws. split; [exact Hn | reflexivity].
Qed.

(** Two profiles on the laboratory machine, the second an open network. *)
Lemma X11_show_wifi_passwords_flag_witness :
  true = true
  /\ exists pws,
       List.length pws = 2
       /\ join nl
            [ "HomeNet: hunter2";
              "Cafe Guest: No password stored (open network or not available)." ]
          = join nl (map profile_report (combine ["HomeNet"; "Cafe Guest"] pws)).
Proof.
  apply (X11_show_wifi_passwords_flag (Lab.boot Lab.wifi [])
           (world_of (list_wifi_profiles (Lab.boot Lab.wifi [])))
           (world_of (show_wifi_passwords false (Lab.boot Lab.wifi [])))
           ["HomeNet"; "Cafe Guest"]);
    vm_compute; reflexivity.
Defined.

Lemma take_line_free s : free_of is_LF (take_line s) = true.
Proof.
  induction s as [|c r IH]; [reflexivity|]. cbn [take_line].
  destruct (Ascii.eqb c LF) eqn:E; [reflexivity|].
  cbn [free_of]. unfold is_LF at 1. rewrite E. exact IH.
Qed.

Lemma take_line_not_empty c r :
  Ascii.eqb c LF = false -> take_line (String c r) <> EmptyString.
Proof. intros E. cbn [take_line]. rewrite E. discriminate. Qed.

Lemma not_space_not_LF c : is_space c = false -> Ascii.eqb c LF = false.
Proof.
  destruct (Ascii.eqb_spec c LF) as [->|]; [discriminate | reflexivity].
Qed.

Lemma group_after_spaces_some s g :
  group_after_spaces s = Some g -> free_of is_LF g = true /\ g <> EmptyString.
Proof.
  revert g. induction s as [|c r IH]; intros g H; [discriminate H|].
  cbn [group_after_spaces] in H. destruct (is_space c) eqn:Es.
  - destruct (group_after_spaces r) as [g'|].
    + injection H as <-. apply IH. reflexivity.
    + destruct (Ascii.eqb c LF) eqn:El; [discriminate H|].
      injection H as <-. split; [apply (take_line_free (String c r))|].
      apply (take_line_not_empty c r), El.
  - injection H as <-. split; [apply (take_line_free (String c r))|].
    apply (take_line_not_empty c r), not_space_not_LF, Es.
Qed.

(** The group of a match is a stretch of one line, not empty, and there is
    a match only where the label occurs. *)
Lemma search_labelled_some label text g :
  search_labelled label text = Some g ->
  free_of is_LF g = true /\ g <> EmptyString /\ contains label text = true.
Proof.
  revert g. induction text as [|c r IH]; intros g H.
  - cbn [search_labelled] in H.
    destruct (String.prefix label EmptyString) eqn:Ep.
    + destruct (match_colon_group (drop (String.length label) EmptyString))
        as [g'|] eqn:Eg; [|discriminate H].
      injection H as <-. unfold match_colon_group in Eg.
      destruct (lstrip (drop (String.length label) EmptyString))
        as [|c' r']; [discriminate Eg|].
      destruct (Ascii.eqb_spec c' ":"%char) as [->|]; cycle 1.
      { destruct c' as [[] [] [] [] [] [] [] []]; try discriminate Eg;
          exfalso; auto. }
      destruct (group_after_spaces_some _ _ Eg). cbn [contains]. rewrite Ep. auto.
    + discriminate H.
  - cbn [search_labelled] in H. cbn [contains].
    destruct (String.prefix label (String c r)) eqn:Ep.
    + destruct (match_colon_group (drop (String.length label) (String c r)))
        as [g'|] eqn:Eg.
      * injection H as <-. unfold match_colon_group in Eg.
        destruct (lstrip (drop (String.length label) (String c r)))
          as [|c' r']; [discriminate Eg|].
        destruct (Ascii.eqb_spec c' ":"%char) as [->|]; cycle 1.
        { destruct c' as [[] [] [] [] [] [] [] []]; try discriminate Eg;
            exfalso; auto. }
        destruct (group_after_spaces_some _ _ Eg). auto.
      * destruct (IH _ H) as (H1 & H2 & H3). auto.
    + destruct (IH _ H) as (H1 & H2 & H3). rewrite H3. auto.
Qed.

Lemma free_of_lstrip p s : free_of p s = true -> free_of p (lstrip s) = true.
Proof.
  induction s as [|c r IH]; [auto|]. cbn [lstrip free_of]. intros H.
  destruct (is_space c); [|exact H].
  apply andb_true_iff in H. apply IH, H.
Qed.

Lemma free_of_rstrip p s : free_of p s = true -> free_of p (rstrip s) = true.
Proof.
  induction s as [|c r IH]; [auto|]. cbn [rstrip free_of]. intros H.
  apply andb_true_iff in H. destruct H as [Hc Hr]. specialize (IH Hr).
  destruct (rstrip r).
  - destruct (is_space c); [reflexivity|]. cbn. rewrite Hc. reflexivity.
  - cbn [free_of] in *. rewrite Hc. exact IH.
Qed.

Lemma free_of_strip p s : free_of p s = true -> free_of p (strip s) = true.
Proof. intros H. apply free_of_rstrip, free_of_lstrip, H. Qed.

(** X12. [get_wifi_password] launches one command and never lets a
    [CalledProcessError] out: a refused query is the result
    [(False, "Failed to query profile: ...")].  When it reports a password,
    [netsh] answered and its output holds "Key Content"; the password is
    taken from one line of it and never runs over a line feed. *)
Theorem X12_wifi_password (profile : string) (w : World) :
  world_of (get_wifi_password profile w)
  = log [EvSubprocessRun (password_cmd profile)] w
  /\ (forall e w',
        get_wifi_password profile w = (Raised e, w') ->
        is_class CalledProcessError e = false)
  /\ (forall pw w',
        get_wifi_password profile w = (Ok (true, pw), w') ->
        free_of is_LF pw = true
        /\ exists out,
             subprocess_run (os w) (trace w) (password_cmd profile) = inr out
             /\ contains "Key Content" out = true).
Proof.
  rewrite get_wifi_password_run. split; [reflexivity | split].
  - intros e w' H.
    destruct (subprocess_run (os w) (trace w) (password_cmd profile))
      as [err | out].
    + destruct (is_class CalledProcessError (exn_of_error err)) eqn:E;
        [discriminate H|]. injection H as <- _. exact E.
    + destruct (search_labelled "Key Content" out); discriminate H.
  - intros pw w' H.
    destruct (subprocess_run (os w) (trace w) (password_cmd profile))
      as [err | out].
    + destruct (is_class CalledProcessError (exn_of_error err));
        discriminate H.
    + destruct (search_labelled "Key Content" out) as [g|] eqn:Es;
        [|discriminate H].
      injection H as <- _.
      destruct (search_labelled_some _ _ _ Es) as (Hf & _ & Hc).
      split; [apply free_of_strip, Hf | eauto].
Qed.

(** The profile with a key on the laboratory machine. *)
Lemma X12_wifi_password_witness :
  free_of is_LF "hunter2" = true
  /\ exists out,
       subprocess_run Lab.wifi [] (password_cmd "HomeNet") = inr out
       /\ contains "Key Content" out = true.
Proof.
  destruct (X12_wifi_password "HomeNet" (Lab.boot Lab.wifi [])) as (_ & _ & H).
  apply (H "hunter2"
           (world_of (get_wifi_password "HomeNet" (Lab.boot Lab.wifi [])))).
  vm_compute. reflexivity.
Defined.

(** ** Reading the output of [netsh] *)





















(** *** The adapter table *)






















(** ** The menu *)





















(** ** What stays away from the console *)

Lemma log_nothing w : log [] w = w.
Proof. unfold log. rewrite app_nil_r. destruct w. reflexivity. Qed.

Section Appends.

Variable allowed : event -> bool.

Lemma appends_ret {A} (a : A) : only_appends allowed (ret a).
Proof. intros w. exists []. rewrite log_nothing. split; reflexivity. Qed.

Lemma appends_raise {A} e : only_appends allowed (@raise A e).
Proof. intros w. exists []. rewrite log_nothing. split; reflexivity. Qed.

Lemma appends_then w evs (w1 : World) evs' (w2 : World) :
  w1 = log evs w -> forallb allowed evs = true ->
  w2 = log evs' w1 -> forallb allowed evs' = true ->
  exists evs'', w2 = log evs'' w /\ forallb allowed evs'' = true.
Proof.
  intros -> H1 -> H2. exists (List.app evs evs'). rewrite log_log.
  split; [reflexivity|]. rewrite forallb_app, H1, H2. reflexivity.
Qed.

Lemma appends_bind {A B} (c : M A) (k : A -> M B) :
  only_appends allowed c -> (forall a, only_appends allowed (k a)) ->
  only_appends allowed (bind c k).
Proof.
  intros Hc Hk w. unfold bind. destruct (Hc w) as (evs & E & Ha).
  destruct (c w) as [[a | e] w1]; cbn [snd] in *; [|eauto].
  destruct (Hk a w1) as (evs' & E' & Ha').
  exact (appends_then _ _ _ _ _ E Ha E' Ha').
Qed.

Lemma appends_try_except {A} (body : M A) catches handler :
  only_appends allowed body -> (forall e, only_appends allowed (handler e)) ->
  only_appends allowed (try_except body catches handler).
Proof.
  intros Hb Hh w. unfold try_except. destruct (Hb w) as (evs & E & Ha).
  destruct (body w) as [[a | e] w1]; cbn [snd] in *; [eauto|].
  destruct (catches e); [|eauto].
  destruct (Hh e w1) as (evs' & E' & Ha').
  exact (appends_then _ _ _ _ _ E Ha E' Ha').
Qed.

Lemma appends_try_finally {A} (body : M A) final :
  only_appends allowed body -> only_appends allowed final ->
  only_appends allowed (try_finally body final).
Proof.
  intros Hb Hf w. unfold try_finally. destruct (Hb w) as (evs & E & Ha).
  destruct (body w) as [r w1]. cbn [snd] in *.
  destruct (Hf w1) as (evs' & E' & Ha').
  destruct (final w1) as [[u | e] w2]; cbn [snd] in *;
    exact (appends_then _ _ _ _ _ E Ha E' Ha').
Qed.

Lemma appends_for_each {A S} (l : list A) (body : A -> S -> M S) :
  (forall x acc, only_appends allowed (body x acc)) ->
  forall acc, only_appends allowed (for_each l acc body).
Proof.
  intros Hb. induction l as [|x rest IH]; intros acc; cbn [for_each].
  - apply appends_ret.
  - apply appends_bind; [apply Hb | intros acc'; apply IH].
Qed.

Lemma appends_for_each_ {A} (l : list A) (body : A -> M unit) :
  (forall x, only_appends allowed (body x)) ->
  only_appends allowed (for_each_ l body).
Proof.
  intros Hb. induction l as [|x rest IH]; cbn [for_each_].
  - apply appends_ret.
  - apply appends_bind; [apply Hb | intros _; apply IH].
Qed.

Lemma appends_emit e : allowed e = true -> only_appends allowed (emit e).
Proof.
  intros H w. exists [e]. split; [reflexivity|]. cbn. rewrite H. reflexivity.
Qed.

Lemma appends_ask {A} (q : OS -> history -> A) e :
  allowed e = true -> only_appends allowed (ask q e).
Proof.
  intros H w. exists [e]. split; [reflexivity|]. cbn. rewrite H. reflexivity.
Qed.

Lemma appends_peek {A} (q : OS -> history -> A) : only_appends allowed (peek q).
Proof. intros w. exists []. rewrite log_nothing. split; reflexivity. Qed.

Lemma appends_lift_error {A} (r : os_error + A) :
  only_appends allowed (lift_error r).
Proof. destruct r; [apply appends_raise | apply appends_ret]. Qed.

Lemma appends_lift_status r : only_appends allowed (lift_status r).
Proof. destruct r; [apply appends_raise | apply appends_ret]. Qed.

Lemma appends_gettempdir : only_appends allowed gettempdir.
Proof.
  intros w. unfold gettempdir. exists []. rewrite log_nothing.
  destruct (tempfile_gettempdir (os w) (trace w)); split; reflexivity.
Qed.

Lemma appends_when cond body :
  only_appends allowed body -> only_appends allowed (when cond body).
Proof. intros H. destruct cond; [exact H | apply appends_ret]. Qed.

Lemma appends_unpack_pair {A B} (r : option (A * B)) :
  only_appends allowed (unpack_pair r).
Proof. destruct r; [apply appends_ret | apply appends_raise]. Qed.

Lemma appends_thread_run {A} (body : M (result_dict A)) :
  only_appends allowed body -> only_appends allowed (thread_run body).
Proof.
  intros H w. unfold thread_run. specialize (H w).
  destruct (body w) as [[r | e] w1]; exact H.
Qed.

End Appends.

Ltac appends_step :=
  match goal with
  | |- only_appends _ (ret _) => apply appends_ret
  | |- only_appends _ (raise _) => apply appends_raise
  | |- only_appends _ (bind _ _) => apply appends_bind; [| intros ?]
  | |- only_appends _ (try_except _ _ _) =>
      apply appends_try_except; [| intros ?]
  | |- only_appends _ (try_finally _ _) => apply appends_try_finally
  | |- only_appends _ (for_each _ _ _) => apply appends_for_each; intros ? ?
  | |- only_appends _ (for_each_ _ _) => apply appends_for_each_; intros ?
  | |- only_appends _ (emit _) => apply appends_emit; reflexivity
  | |- only_appends _ (stdout_write _) => apply appends_emit; reflexivity
  | |- only_appends _ (print _) => apply appends_emit; reflexivity
  | |- only_appends _ (ask _ _) => apply appends_ask; reflexivity
  | |- only_appends _ (peek _) => apply appends_peek
  | |- only_appends _ (lift_error _) => apply appends_lift_error
  | |- only_appends _ (lift_status _) => apply appends_lift_status
  | |- only_appends _ gettempdir => apply appends_gettempdir
  | |- only_appends _ (when _ _) => apply appends_when
  | |- only_appends _ (unpack_pair _) => apply appends_unpack_pair
  | |- only_appends _ (thread_run _) => apply appends_thread_run
  | |- only_appends _ (if ?b then _ else _) => destruct b
  | |- only_appends _ (match ?x with _ => _ end) => destruct x
  | H : only_appends ?al ?c |- only_appends ?al ?c => exact H
  | H : forall x, only_appends ?al (?c x) |- only_appends ?al (?c _) => apply H
  end.

Ltac appends_auto := repeat appends_step.

Lemma silent_get_temp_dir : only_appends off_console get_temp_dir.
Proof. unfold get_temp_dir. unfold_calls. appends_auto. Qed.

Lemma silent_clean_temp_dir d : only_appends off_console (clean_temp_dir d).
Proof.
  unfold clean_temp_dir, clean_entry.
  apply appends_bind; [apply silent_get_temp_dir | intros temp_dir].
  unfold_calls. appends_auto.
Qed.

Lemma silent_empty_recycle_bin d : only_appends off_console (empty_recycle_bin d).
Proof. unfold empty_recycle_bin. unfold_calls. appends_auto. Qed.

Lemma silent_list_network_adapters : only_appends off_console list_network_adapters.
Proof. unfold list_network_adapters. unfold_calls. appends_auto. Qed.

Lemma silent_restart_adapter name d :
  only_appends off_console (restart_adapter name d).
Proof. unfold restart_adapter. unfold_calls. appends_auto. Qed.

Lemma silent_apply_tcp_optimizations d :
  only_appends off_console (apply_tcp_optimizations d).
Proof. unfold apply_tcp_optimizations, tcp_step. unfold_calls. appends_auto. Qed.

Lemma silent_show_wifi_passwords d :
  only_appends off_console (show_wifi_passwords d).
Proof.
  unfold show_wifi_passwords, list_wifi_profiles, get_wifi_password.
  unfold_calls. appends_auto.
Qed.

Lemma silent_create_god_mode d : only_appends off_console (create_god_mode d).
Proof. unfold create_god_mode. unfold_calls. appends_auto. Qed.

Lemma appends_weaken (p q : event -> bool) {A} (c : M A) :
  (forall e, p e = true -> q e = true) ->
  only_appends p c -> only_appends q c.
Proof.
  intros Hpq H w. destruct (H w) as (evs & E & Ha). exists evs.
  split; [exact E|]. rewrite forallb_forall in *. auto.
Qed.

Lemma off_console_no_read e : off_console e = true -> no_read e = true.
Proof. destruct e; auto. Qed.

(** X16. The seven primitives stay away from the console.  Whatever the
    machine answers and whether they return or raise, [clean_temp_dir],
    [empty_recycle_bin], [list_network_adapters], [restart_adapter],
    [apply_tcp_optimizations], [show_wifi_passwords] (with the two
    functions it calls) and [create_god_mode] write nothing to
    [sys.stdout], take no line from [sys.stdin], and leave the flag
    [launched_interactive] alone: all they add to the history are system
    calls.  Every line the user sees comes from the orchestrator and the
    progress runner. *)
Theorem X16_primitives_off_console (d : bool) (name : string) :
  only_appends off_console (clean_temp_dir d)
  /\ only_appends off_console (empty_recycle_bin d)
  /\ only_appends off_console list_network_adapters
  /\ only_appends off_console (restart_adapter name d)
  /\ only_appends off_console (apply_tcp_optimizations d)
  /\ only_appends off_console (show_wifi_passwords d)
  /\ only_appends off_console (create_god_mode d).
Proof.
  repeat split.
  - apply silent_clean_temp_dir.
  - apply silent_empty_recycle_bin.
  - apply silent_list_network_adapters.
  - apply silent_restart_adapter.
  - apply silent_apply_tcp_optimizations.
  - apply silent_show_wifi_passwords.
  - apply silent_create_god_mode.
Qed.

Lemma unattended_spinner_loop polls : forall i start prefix,
  only_appends no_read (spinner_loop polls i start prefix).
Proof.
  induction polls as [|k IH]; intros i start prefix; cbn [spinner_loop].
  - apply appends_ret.
  - unfold_calls. appends_auto. apply IH.
Qed.

Lemma unattended_run_with_spinner {A} (func : M A) prefix :
  only_appends off_console func ->
  only_appends no_read (run_with_spinner func prefix).
Proof.
  intros H. apply (appends_weaken _ _ _ off_console_no_read) in H.
  unfold run_with_spinner, target, _spinner_worker. unfold_calls.
  appends_auto. apply unattended_spinner_loop.
Qed.

(** With [assume_yes] and without the restart action, a pass reads
    nothing. *)
Lemma unattended_run_actions actions d :
  mem "restart" actions = false ->
  only_appends no_read (run_actions actions d true).
Proof.
  intros H. unfold run_actions, run_actions_with.
  destruct actions as [|a rest]; [appends_auto|].
  unfold when. rewrite H. cbv iota.
  unfold temp_block, recycle_block, tcp_block, wifi_block, godmode_block,
    module_primitives, ensure_confirm.
  cbn [prim_clean_temp_dir prim_empty_recycle_bin prim_apply_tcp_optimizations
       prim_show_wifi_passwords prim_create_god_mode negb].
  repeat first
    [ apply unattended_run_with_spinner
    | apply silent_clean_temp_dir
    | apply silent_empty_recycle_bin
    | apply silent_apply_tcp_optimizations
    | apply silent_show_wifi_passwords
    | apply (appends_weaken _ _ _ off_console_no_read), silent_create_god_mode
    | appends_step ].
Qed.

Lemma flags_without_restart args :
  all args = false -> restart_adapters args = false ->
  mem "restart" (flag_actions args) = false.
Proof.
  intros Ha Hr. unfold flag_actions. rewrite Ha, Hr.
  destruct (clean_temp args), (empty_recycle args), (optimize_tcp args),
    (show_wifi args); reflexivity.
Qed.

(** The [__main__] block after [main], when the menu was never opened. *)
Lemma script_after_main args w r w1 :
  main args w = Some (r, w1) ->
  launched_interactive w1 = false ->
  script args w
  = match r with
    | Ok rc => Some (rc, w1)
    | Raised e =>
        if is_KeyboardInterrupt e
        then Some (1%Z, log [EvStdout ((nl ++ "Interrupted by user.") ++ nl)] w1)
        else Some (1%Z, w1)
    end.
Proof.
  intros H Hl. unfold script. rewrite H. destruct r as [rc | e].
  - unfold try_except. rewrite Hl. reflexivity.
  - destruct (is_KeyboardInterrupt e); [|reflexivity].
    unfold bind. rewrite print_run. unfold ret, try_except.
    cbn [launched_interactive log]. rewrite Hl. reflexivity.
Qed.

(** X17. An unattended run.  Started with --yes and one or more of
    --clean-temp, --empty-recycle, --optimize-tcp and --show-wifi (neither
    --all nor --restart-adapters), the program runs to its end without
    taking a line from [sys.stdin]: no gate, no menu, no closing pause.
    It always ends, with exit status 0 or 1, and status 0 exactly when the
    pass ended without a fault. *)
Theorem X17_unattended_run (args : Namespace) (w : World) :
  cli_flags args = true ->
  yes args = true ->
  all args = false ->
  restart_adapters args = false ->
  launched_interactive w = false ->
  exists rc evs,
    script args w = Some (rc, log evs w)
    /\ forallb no_read evs = true
    /\ (rc = 0%Z \/ rc = 1%Z)
    /\ (rc = 0%Z <->
        result_of (run_actions (flag_actions args) (dry_run args) true w)
        = Ok tt).
Proof.
  intros Hc Hy Ha Hr Hl.
  destruct (unattended_run_actions (flag_actions args) (dry_run args)
              (flags_without_restart _ Ha Hr) w) as (evs & E & Hev).
  assert (Hm : main args w
               = Some (match result_of (run_actions (flag_actions args)
                                          (dry_run args) true w) with
                       | Ok _ => Ok 0%Z
                       | Raised e => Raised e
                       end, log evs w)).
  { unfold main. rewrite Hc, Hy. unfold bind, result_of.
    destruct (run_actions (flag_actions args) (dry_run args) true w)
      as [[u | e] w1]; cbn [snd fst] in *; subst w1; reflexivity. }
  rewrite (script_after_main _ _ _ _ Hm Hl).
  unfold result_of in *.
  destruct (run_actions (flag_actions args) (dry_run args) true w)
    as [[[] | e] w1]; cbn [fst].
  - exists 0%Z, evs. repeat split; auto.
  - destruct (is_KeyboardInterrupt e).
    + exists 1%Z. eexists. rewrite log_log. split; [reflexivity|].
      rewrite forallb_app, Hev. repeat split; auto; discriminate.
    + exists 1%Z, evs. repeat split; auto; discriminate.
Qed.

(** --clean-temp --empty-recycle --yes on the laboratory machine, with a
    line waiting on the input that nobody takes. *)
Lemma X17_unattended_run_witness :
  let args := mk_Namespace true true false false false false false true in
  let w := Lab.boot Lab.machine ["left alone"] in
  exists rc evs,
    script args w = Some (rc, log evs w)
    /\ forallb no_read evs = true
    /\ (rc = 0%Z \/ rc = 1%Z)
    /\ (rc = 0%Z <->
        result_of (run_actions (flag_actions args) (dry_run args) true w)
        = Ok tt).
Proof.
  intros args w. apply (X17_unattended_run args w); reflexivity.
Defined.

(** ** The interactive session *)

Lemma input_reads prompt w line w' :
  input prompt w = (Ok line, w') -> stdin w = line :: stdin w'.
Proof.
  unfold input. destruct (stdin w) as [|l rest]; [discriminate|].
  intros H. injection H as -> <-. reflexivity.
Qed.

Lemma frame_interactive_menu : frame any_event interactive_menu.
Proof. unfold interactive_menu. frame_auto. Qed.

Lemma frame_menu_turn args : frame any_event (menu_turn args).
Proof.
  unfold menu_turn. apply frame_bind; [apply frame_interactive_menu|].
  intros actions. apply frame_menu_rest.
Qed.

(** A turn of the menu that does not raise takes two lines or more: the
    answer to the menu and the answer to the question that follows. *)
Lemma menu_turn_two_lines args w again w' :
  menu_turn args w = (Ok again, w') ->
  List.length (stdin w') + 2 <= List.length (stdin w).
Proof.
  unfold menu_turn. unfold bind at 1.
  destruct (interactive_menu w) as [[actions | e] w1] eqn:Em; [|discriminate].
  destruct (interactive_menu_reads _ _ _ Em) as (l0 & Hs). rewrite Hs.
  cbn [List.length]. destruct actions as [|a rest].
  - unfold bind.
    destruct (input _ w1) as [[line | e] w2] eqn:Ei; [|discriminate].
    intros H. injection H as _ <-. rewrite (input_reads _ _ _ _ Ei).
    cbn [List.length]. lia.
  - unfold bind at 1.
    pose proof (frame_run_actions any_event any_event_all (a :: rest)
                  (dry_run args) (yes args) w1) as (_ & _ & _ & (k & Hk)).
    destruct (run_actions (a :: rest) (dry_run args) (yes args) w1)
      as [[u | e] w2]; [|discriminate]. cbn [snd] in Hk.
    unfold bind.
    destruct (input _ w2) as [[line | e] w3] eqn:Ei; [|discriminate].
    intros H. injection H as _ <-.
    pose proof (input_reads _ _ _ _ Ei) as Hr.
    pose proof (skipn_length_le k (stdin w1)) as Hle.
    rewrite <- Hk, Hr in Hle. cbn [List.length] in Hle. lia.
Qed.

Lemma menu_loop_step k args w :
  menu_loop (S k) args w
  = match menu_turn args w with
    | (Ok true, w') => menu_loop k args w'
    | (Ok false, w') => Some (Ok tt, w')
    | (Raised e, w') => Some (Raised e, w')
    end.
Proof. reflexivity. Qed.

Lemma main_interactive args w :
  cli_flags args = false ->
  main args w
  = match menu_loop (S (List.length (stdin w))) args
            (mk_World (os w) (trace w) (stdin w) true) with
    | None => None
    | Some (Ok _, w2) => Some (Ok 0%Z, w2)
    | Some (Raised e, w2) => Some (Raised e, w2)
    end.
Proof. intros H. unfold main. rewrite H. reflexivity. Qed.

Lemma menu_loop_result fuel : forall args w r w',
  menu_loop fuel args w = Some (r, w') ->
  launched_interactive w' = launched_interactive w
  /\ (forall u, r = Ok u ->
        List.length (stdin w') + 2 <= List.length (stdin w)).
Proof.
  induction fuel as [|k IH]; intros args w r w' H; [discriminate|].
  rewrite menu_loop_step in H.
  pose proof (frame_menu_turn args w) as (_ & Hl & _).
  destruct (menu_turn args w) as [[[|] | e] w1] eqn:E; cbn [snd] in Hl.
  - destruct (IH _ _ _ _ H) as (Hl' & Hn). split; [congruence|].
    intros u Hu. specialize (Hn u Hu).
    pose proof (menu_turn_two_lines _ _ _ _ E). lia.
  - injection H as <- <-. split; [exact Hl|].
    intros _ _. apply (menu_turn_two_lines _ _ _ _ E).
  - injection H as <- <-. split; [exact Hl|]. discriminate.
Qed.

Lemma interactive_menu_eof w :
  stdin w = [] ->
  interactive_menu w
  = (Raised EOF_when_reading,
     log (List.app (printed menu_lines)
            [EvStdout selection_question; EvStdinEOF]) w).
Proof.
  intros H. unfold interactive_menu. unfold bind at 1.
  rewrite for_each_print. unfold bind, input. cbn [stdin log].
  rewrite H, log_log. reflexivity.
Qed.

Lemma main_at_eof args w :
  cli_flags args = false -> stdin w = [] ->
  main args w = Some (Raised EOF_when_reading, menu_at_eof w).
Proof.
  intros Hc Hs. rewrite (main_interactive _ _ Hc).
  remember (mk_World (os w) (trace w) (stdin w) true) as w1 eqn:E1.
  assert (Hs1 : stdin w1 = []) by (subst w1; exact Hs).
  rewrite Hs. cbn [List.length]. rewrite menu_loop_step.
  unfold menu_turn. unfold bind at 1.
  rewrite (interactive_menu_eof _ Hs1). subst w1. unfold menu_at_eof, log.
  cbn [os trace stdin launched_interactive]. rewrite Hs. reflexivity.
Qed.

(** The closing pause after an interactive session that returned. *)
Lemma script_after_session args w rc w1 :
  main args w = Some (Ok rc, w1) ->
  launched_interactive w1 = true ->
  exists w2, script args w = Some (rc, w2)
             /\ match stdin w1 with
                | [] => w2 = log [EvStdout closing_question; EvStdinEOF] w1
                | line :: rest => stdin w2 = rest
                end.
Proof.
  intros H Hl. unfold script. rewrite H. unfold try_except. rewrite Hl.
  unfold bind, input. destruct (stdin w1) as [|line rest].
  - cbn. eexists. split; reflexivity.
  - cbn. eexists. split; reflexivity.
Qed.

(** X18. The interactive session.  Started without an action flag, [main]
    always ends, having set [launched_interactive].  It returns 0 only
    after taking two lines or more from [sys.stdin] (a menu answer and the
    answer to the question after it); the process then exits with status
    0, also when the stream ends at the closing pause.  When no input is
    available at all, the menu is printed once, [EOFError] leaves [main]
    uncaught and the process exits with status 1 without the closing
    pause. *)
Theorem X18_interactive_session (args : Namespace) (w : World) :
  cli_flags args = false ->
  (exists r w1,
     main args w = Some (r, w1)
     /\ launched_interactive w1 = true
     /\ (forall rc, r = Ok rc ->
           rc = 0%Z
           /\ List.length (stdin w1) + 2 <= List.length (stdin w)
           /\ exists w2, script args w = Some (0%Z, w2)
                         /\ (stdin w1 = [] ->
                             w2 = log [EvStdout closing_question; EvStdinEOF] w1)))
  /\ (stdin w = [] ->
      main args w = Some (Raised EOF_when_reading, menu_at_eof w)
      /\ script args w = Some (1%Z, menu_at_eof w)).
Proof.
  intros Hc. split.
  - pose proof (main_total args w) as Ht.
    destruct (main args w) as [[r w1]|] eqn:Em; [|contradiction].
    exists r, w1. split; [reflexivity|].
    assert (Hres : launched_interactive w1 = true
                   /\ (forall rc, r = Ok rc ->
                         rc = 0%Z
                         /\ List.length (stdin w1) + 2 <= List.length (stdin w))).
    { rewrite (main_interactive _ _ Hc) in Em.
      destruct (menu_loop _ args _) as [[[u | e] w2]|] eqn:El; [| |discriminate].
      - injection Em as <- <-.
        destruct (menu_loop_result _ _ _ _ _ El) as (Hl & Hn).
        split; [exact Hl|]. intros rc Hrc. injection Hrc as <-.
        split; [reflexivity|]. apply (Hn u). reflexivity.
      - injection Em as <- <-.
        destruct (menu_loop_result _ _ _ _ _ El) as (Hl & _).
        split; [exact Hl|]. discriminate. }
    destruct Hres as (Hl & Hn). split; [exact Hl|].
    intros rc Hrc. destruct (Hn rc Hrc) as (-> & Hlen).
    split; [reflexivity|]. split; [exact Hlen|]. subst r.
    destruct (script_after_session _ _ _ _ Em Hl) as (w2 & Hs & Hw).
    exists w2. split; [exact Hs|]. intros He. rewrite He in Hw. exact Hw.
  - intros Hs. split; [apply (main_at_eof _ _ Hc Hs)|].
    unfold script. rewrite (main_at_eof _ _ Hc Hs). reflexivity.
Qed.

(** A session on the laboratory machine: an empty answer to the menu, then
    Enter, and the stream ends at the closing pause; and a session with no
    input at all. *)
Lemma X18_interactive_session_witness :
  let args := mk_Namespace false false false false false false true false in
  let w := Lab.boot Lab.machine [EmptyString; EmptyString] in
  (exists r w1,
     main args w = Some (r, w1)
     /\ launched_interactive w1 = true
     /\ (forall rc, r = Ok rc ->
           rc = 0%Z
           /\ List.length (stdin w1) + 2 <= List.length (stdin w)
           /\ exists w2, script args w = Some (0%Z, w2)
                         /\ (stdin w1 = [] ->
                             w2 = log [EvStdout closing_question; EvStdinEOF] w1)))
  /\ script args (Lab.boot Lab.machine [])
     = Some (1%Z, menu_at_eof (Lab.boot Lab.machine [])).
Proof.
  intros args w. split.
  - apply (proj1 (X18_interactive_session args w eq_refl)).
  - apply (proj2 (X18_interactive_session args (Lab.boot Lab.machine [])
                    eq_refl)).
    reflexivity.
Defined.

(** ** The TCP commands, one after the other *)

Lemma nth_answer_next w cmd rest i :
  nth_answer (log [EvSubprocessRun cmd] w) rest i
  = nth_answer w (cmd :: rest) (S i).
Proof.
  unfold nth_answer. cbn [log trace os nth firstn map].
  rewrite <- app_assoc. reflexivity.
Qed.

Lemma nth_answer_first w cmd rest :
  nth_answer w (cmd :: rest) 0 = subprocess_run (os w) (trace w) cmd.
Proof. unfold nth_answer. cbn [firstn map nth]. rewrite app_nil_r. reflexivity. Qed.

(** While every command runs, the loop goes through all of them. *)
Lemma tcp_loop_launches cmds : forall out_lines w,
  (forall i, i < List.length cmds -> command_ran (nth_answer w cmds i) = true) ->
  exists lines,
    for_each cmds out_lines tcp_step w
    = (Ok lines, log (map EvSubprocessRun cmds) w).
Proof.
  induction cmds as [|cmd rest IH]; intros out_lines w H.
  - exists out_lines. cbn [for_each map]. rewrite log_nothing. reflexivity.
  - cbn [for_each]. unfold bind at 1. rewrite tcp_step_run.
    pose proof (H 0 ltac:(cbn; lia)) as H0. rewrite nth_answer_first in H0.
    assert (Hrest : forall i, i < List.length rest ->
              command_ran (nth_answer (log [EvSubprocessRun cmd] w) rest i)
              = true).
    { intros i Hi. rewrite nth_answer_next. apply H. cbn. lia. }
    destruct (subprocess_run (os w) (trace w) cmd) as [e | out];
      cbn [command_ran] in H0; [rewrite H0|];
      match goal with
      | |- context [for_each rest ?acc tcp_step ?w1] =>
          destruct (IH acc w1 Hrest) as (lines & E); exists lines;
          rewrite E, log_log; reflexivity
      end.
Qed.

(** The first command that cannot be launched ends the loop. *)
Lemma tcp_loop_aborts cmds : forall i out_lines w e,
  i < List.length cmds ->
  (forall j, j < i -> command_ran (nth_answer w cmds j) = true) ->
  nth_answer w cmds i = inl e ->
  is_class CalledProcessError (exn_of_error e) = false ->
  for_each cmds out_lines tcp_step w
  = (Raised (exn_of_error e),
     log (map EvSubprocessRun (firstn (S i) cmds)) w).
Proof.
  induction cmds as [|cmd rest IH]; intros i out_lines w e Hi Hb Ha Hc;
    [cbn in Hi; lia|].
  cbn [for_each]. unfold bind at 1. rewrite tcp_step_run.
  destruct i as [|i].
  - rewrite nth_answer_first in Ha. rewrite Ha, Hc. reflexivity.
  - pose proof (Hb 0 ltac:(lia)) as H0. rewrite nth_answer_first in H0.
    assert (Hrest : for_each rest
                      (match subprocess_run (os w) (trace w) cmd with
                       | inr _ => List.app out_lines ["OK: " ++ join " " cmd]
                       | inl e0 =>
                           List.app out_lines
                             ["FAILED: " ++ join " " cmd ++ " -> "
                              ++ stderr_or_text (exn_of_error e0)]
                       end) tcp_step (log [EvSubprocessRun cmd] w)
                    = (Raised (exn_of_error e),
                       log (map EvSubprocessRun (firstn (S i) rest))
                         (log [EvSubprocessRun cmd] w))).
    { apply IH.
      - cbn in Hi. lia.
      - intros j Hj. rewrite nth_answer_next. apply Hb. lia.
      - rewrite nth_answer_next. exact Ha.
      - exact Hc. }
    rewrite log_log in Hrest.
    destruct (subprocess_run (os w) (trace w) cmd) as [e0 | out];
      cbn [command_ran] in H0; [rewrite H0|]; exact Hrest.
Qed.

(** X19. The launches of a real [apply_tcp_optimizations].  As long as
    every command runs (with exit status zero or not), all five commands
    are launched, in the order of the list, and the function returns: a
    refused command does not stop the later ones.  A command that cannot
    be launched at all (any fault other than [CalledProcessError], such as
    a missing [netsh]) ends the function with that fault, and the commands
    after it are not launched. *)
Theorem X19_tcp_launches (w : World) :
  ((forall i, i < 5 -> command_ran (nth_answer w tcp_commands i) = true) ->
   exists msg,
     apply_tcp_optimizations false w
     = (Ok (true, msg), log (map EvSubprocessRun tcp_commands) w))
  /\ (forall i e,
        i < 5 ->
        (forall j, j < i -> command_ran (nth_answer w tcp_commands j) = true) ->
        nth_answer w tcp_commands i = inl e ->
        is_class CalledProcessError (exn_of_error e) = false ->
        apply_tcp_optimizations false w
        = (Raised (exn_of_error e),
           log (map EvSubprocessRun (firstn (S i) tcp_commands)) w)).
Proof.
  split.
  - intros H. unfold apply_tcp_optimizations. cbv zeta.
    destruct (tcp_loop_launches tcp_commands [] w H) as (lines & E).
    unfold bind. rewrite E. eexists. reflexivity.
  - intros i e Hi Hb Ha Hc. unfold apply_tcp_optimizations. cbv zeta.
    unfold bind. rewrite (tcp_loop_aborts tcp_commands i [] w e Hi Hb Ha Hc).
    reflexivity.
Qed.

(** On the laboratory machine the second command is refused and all five
    are launched; without [netsh] the first launch ends the function. *)
Lemma X19_tcp_launches_witness :
  (exists msg,
     apply_tcp_optimizations false (Lab.boot Lab.machine [])
     = (Ok (true, msg),
        log (map EvSubprocessRun tcp_commands) (Lab.boot Lab.machine [])))
  /\ apply_tcp_optimizations false (Lab.boot Lab.no_netsh [])
     = (Raised (exn_of_error Lab.not_found),
        log (map EvSubprocessRun (firstn 1 tcp_commands))
          (Lab.boot Lab.no_netsh [])).
Proof.
  split.
  - apply (proj1 (X19_tcp_launches (Lab.boot Lab.machine []))).
    intros i Hi.
    destruct i as [|[|[|[|[|i]]]]]; [reflexivity .. | exfalso; lia].
  - apply (proj2 (X19_tcp_launches (Lab.boot Lab.no_netsh []))
             0 Lab.not_found); [lia | intros j Hj; exfalso; lia
                               | reflexivity | reflexivity].
Defined.

(** ** A simulated pass *)

















(** ** Restarting the selected adapters *)







